(** * onewire-prom-exporter: a shallow embedding of [main.go]

    The exporter lists the one-wire devices once, then polls each device's
    [w1_slave] file forever, parsing the temperature with a regular
    expression, and publishes the readings through Prometheus gauges and a
    package-level slice served as JSON.

    The embedding keeps the shape of the Go code:
    - [float64] is an interface ([Float64]) with two instances: exact
      rational arithmetic ([Q]) and IEEE-754 binary64 (Rocq's primitive
      floats);
    - the regular expression is a term of a small regex syntax run by a
      backtracking matcher with Go's leftmost-first, greedy preference;
    - the file system, the clock and the logger are effects of a state
      monad [M] whose state carries the package-level variables and a trace
      of events; the outside world is an oracle [World]. *)

From Stdlib Require Import ZArith QArith Qround Qabs Lqa Floats Ascii String.
From stdpp Require Import gmap strings list.

Local Open Scope Z_scope.

(** ** float64 *)

(** The operations [main.go] performs on [float64] values, and the
    constants it mentions. *)
Class Float64 (F : Type) := {
  fadd : F -> F -> F;
  fmul : F -> F -> F;
  fdiv : F -> F -> F;
  (** [math.Round]: nearest integer, half away from zero. *)
  math_Round : F -> F;
  (** The float64 denoted by an optional minus sign and a decimal digit
      string of value [n], as [strconv.ParseFloat] returns it. *)
  f_of_decimal : bool -> N -> F;
  (** The constants [0], [1.8], [32], [100] and [1000]. *)
  f_0 : F;
  f_1_8 : F;
  f_32 : F;
  f_100 : F;
  f_1000 : F
}.

(** *** Exact arithmetic *)

Module Exact.

(** [math.Trunc]: the integer part, towards zero. *)
Definition Trunc (x : Q) : Z :=
  if Qle_bool 0 x then Qfloor x else Qceiling x.

(** [math.Round], after the reference implementation in Go's
    documentation:
    [t := Trunc(x); if Abs(x-t) >= 0.5 { return t + Copysign(1, x) }; return t]. *)
Definition Round (x : Q) : Q :=
  let t := Trunc x in
  if Qle_bool (1 # 2) (Qabs (x - inject_Z t))
  then inject_Z (t + (if Qle_bool 0 x then 1 else -1))
  else inject_Z t.

Definition of_decimal (neg : bool) (n : N) : Q :=
  inject_Z (if neg then - Z.of_N n else Z.of_N n).

#[global] Instance float64 : Float64 Q := {|
  fadd := Qplus;
  fmul := Qmult;
  fdiv := Qdiv;
  math_Round := Round;
  f_of_decimal := of_decimal;
  f_0 := 0%Q;
  f_1_8 := (18 # 10)%Q;
  f_32 := 32%Q;
  f_100 := 100%Q;
  f_1000 := 1000%Q
|}.

End Exact.

(** *** IEEE-754 binary64

    Every operation rounds to nearest, ties to even; a product and a sum
    are rounded one after the other (no fused multiply-add). *)

Module Binary64.

(** The float64 nearest to the integer [z] (ties to even, infinite past
    the largest finite value); [neg] signs a zero. *)
Definition of_Z (neg : bool) (z : Z) : float :=
  SF2Prim (binary_normalize prec emax z 0 neg).

(** [math.Round] on the value [(-1)^s * m * 2^e]: a value with [0 <= e]
    is an integer already; otherwise the magnitude is rounded half up and
    the sign kept (also for a zero result). *)
Definition Round (x : float) : float :=
  match Prim2SF x with
  | S754_finite s m e =>
      if 0 <=? e then x
      else
        let d := 2 ^ (- e) in
        let q := Z.pos m / d in
        let r := Z.pos m mod d in
        let n := if d <=? 2 * r then q + 1 else q in
        of_Z s (if s then - n else n)
  | _ => x
  end.

Definition of_decimal (neg : bool) (n : N) : float :=
  of_Z neg (if neg then - Z.of_N n else Z.of_N n).

#[global] Instance float64 : Float64 float := {|
  fadd := PrimFloat.add;
  fmul := PrimFloat.mul;
  fdiv := PrimFloat.div;
  math_Round := Round;
  f_of_decimal := of_decimal;
  f_0 := 0%float;
  (* the float64 nearest to 1.8 *)
  f_1_8 := 0x1.ccccccccccccdp+0%float;
  f_32 := 32%float;
  f_100 := 100%float;
  f_1000 := 1000%float
|}.

End Binary64.

(** ** The unit conversion of [observeOnewireTemperature]

    [fahrenheit := math.Round((value*1.8+32)*100) / 100] *)
Definition fahrenheit {F} `{Float64 F} (value : F) : F :=
  fdiv (math_Round (fmul (fadd (fmul value f_1_8) f_32) f_100)) f_100.

(** ** Regular expressions

    The fragment of Go's [regexp] syntax that [main.go] uses: single
    characters and classes, greedy repetition of a class, a greedy option,
    concatenation and a numbered capturing group. The flag [(?s)] makes [.]
    match every character, newline included.

    A text is a sequence of bytes. Go matches rune by rune; the literals
    and the class of the pattern are ASCII, and an ASCII byte always starts
    a rune, so matching byte by byte finds the same matches. *)

Inductive cclass :=
| CAny                        (* [.] under [(?s)] *)
| CChar (c : ascii)           (* a literal character *)
| CRange (lo hi : ascii).     (* [[lo-hi]] *)

Inductive regex :=
| One (c : cclass)
| Star (c : cclass)           (* [c*], greedy *)
| Plus (c : cclass)           (* [c+], greedy *)
| Quest (r : regex)           (* [r?], greedy *)
| Cat (r1 r2 : regex)
| Group (i : nat) (r : regex) (* the [i]-th pair of parentheses *)
| Eps.

Definition in_class (c : cclass) (a : ascii) : bool :=
  match c with
  | CAny => true
  | CChar b => Ascii.eqb a b
  | CRange lo hi => (N_of_ascii lo <=? N_of_ascii a)%N && (N_of_ascii a <=? N_of_ascii hi)%N
  end.
Global Arguments in_class : simpl never.

(** A literal string, character by character. *)
Fixpoint Str (s : string) : regex :=
  match s with
  | EmptyString => Eps
  | String a s' => Cat (One (CChar a)) (Str s')
  end.

(** [consumed s rest]: the prefix of [s] that was read when [rest] is left. *)
Definition consumed (s rest : string) : string :=
  substring 0 (String.length s - String.length rest) s.

(** Greedy repetition: read as many characters of the class as possible,
    and give one back at a time while the continuation [k] fails. *)
Fixpoint star {A} (p : ascii -> bool) (k : string -> option A) (s : string) : option A :=
  match s with
  | String a s' =>
      if p a then
        match star p k s' with
        | Some m => Some m
        | None => k s
        end
      else k s
  | EmptyString => k s
  end.

(** The backtracking matcher, in continuation-passing style: [exec r s cs k]
    matches [r] at the start of [s] and hands the rest of the text and the
    captures to [k]; where [r] can match in several ways they are tried in
    the order of preference (longer repetition first, option taken first),
    and the first one that [k] accepts wins. *)
Fixpoint exec {A} (r : regex) (s : string) (cs : gmap nat string)
    (k : string -> gmap nat string -> option A) : option A :=
  match r with
  | Eps => k s cs
  | One c =>
      match s with
      | String a s' => if in_class c a then k s' cs else None
      | EmptyString => None
      end
  | Star c => star (in_class c) (fun s' => k s' cs) s
  | Plus c =>
      match s with
      | String a s' => if in_class c a then star (in_class c) (fun s'' => k s'' cs) s' else None
      | EmptyString => None
      end
  | Quest r' =>
      match exec r' s cs k with
      | Some m => Some m
      | None => k s cs
      end
  | Cat r1 r2 => exec r1 s cs (fun s' cs' => exec r2 s' cs' k)
  | Group i r' => exec r' s cs (fun s' cs' => k s' (<[i := consumed s s']> cs'))
  end.

(** [NumSubexp]: the number of capturing groups. *)
Fixpoint NumSubexp (r : regex) : nat :=
  match r with
  | Quest r' => NumSubexp r'
  | Cat r1 r2 => NumSubexp r1 + NumSubexp r2
  | Group _ r' => S (NumSubexp r')
  | _ => 0
  end.

(** A match anchored at the start of [s]: the matched text followed by the
    text of each group (empty for a group that took no part). *)
Definition match_here (r : regex) (s : string) : option (list string) :=
  exec r s ∅ (fun rest cs =>
    Some (consumed s rest :: map (fun i => default "" (cs !! i)) (seq 1 (NumSubexp r)))).

(** [Regexp.FindStringSubmatch]: the leftmost match, [None] for Go's
    [nil]. *)
Fixpoint FindStringSubmatch (r : regex) (s : string) : option (list string) :=
  match match_here r s with
  | Some m => Some m
  | None =>
      match s with
      | String _ s' => FindStringSubmatch r s'
      | EmptyString => None
      end
  end.

(** [re := regexp.MustCompile(`(?s).*YES.*t=(-?[0-9]+)`)] *)
Definition re : regex :=
  Cat (Star CAny)
    (Cat (Str "YES")
      (Cat (Star CAny)
        (Cat (Str "t=")
          (Group 1 (Cat (Quest (One (CChar "-"))) (Plus (CRange "0" "9"))))))).

(** ** [strconv.ParseFloat] on decimal integers

    The capture of [re] is an optional minus sign and decimal digits, and
    the model of [ParseFloat] covers that syntax only: any other text,
    which the capture never is, is given a syntax error. The range error
    that Go reports with an infinite result is left out: the caller
    discards the error. *)

Inductive error :=
| ErrSyntax (s : string)               (* [strconv.ErrSyntax] *)
| PathError (op path : string)         (* an [*fs.PathError] of the file system *)
| errorString (msg : string).          (* [errors.New(msg)] *)

Definition digit_of (a : ascii) : option N :=
  let n := N_of_ascii a in
  if (48 <=? n)%N && (n <=? 57)%N then Some (n - 48)%N else None.

Fixpoint digits (s : string) (acc : N) : option N :=
  match s with
  | EmptyString => Some acc
  | String a s' =>
      match digit_of a with
      | Some d => digits s' (10 * acc + d)%N
      | None => None
      end
  end.

Definition decimal (s : string) : option (bool * N) :=
  match s with
  | EmptyString => None
  | String a s' =>
      if Ascii.eqb a "-"
      then match s' with
           | EmptyString => None
           | _ => n ← digits s' 0%N; Some (true, n)
           end
      else n ← digits s 0%N; Some (false, n)
  end.

Definition ParseFloat {F} `{Float64 F} (s : string) : F * option error :=
  match decimal s with
  | Some (neg, n) => (f_of_decimal neg n, None)
  | None => (f_0, Some (ErrSyntax s))
  end.

(** ** [strings.Contains] *)

Fixpoint Contains (s substr : string) : bool :=
  if String.prefix substr s then true
  else match s with
       | String _ s' => Contains s' substr
       | EmptyString => false
       end.

(** ** The program state, the outside world and the effects *)

Section Exporter.

Context {F : Type} `{Float64 F}.

(** [type sensor struct] *)
Record sensor := {
  SensorID : string;
  SensorType : string;
  SensorValue : F
}.

(** What the program does to the outside world, in order. *)
Inductive level := InfoLevel | WarningLevel | ErrorLevel | FatalLevel.

Inductive logval :=
| LString (s : string)
| LFloat (v : F)
| LError (e : error).

Inductive event :=
| ReadDir (path : string)                    (* [ioutil.ReadDir] *)
| ReadFile (path : string)                   (* [ioutil.ReadFile] *)
| Sleep (seconds : nat)                      (* [time.Sleep] *)
| Log (l : level) (fields : list (string * logval)) (msg : string)
| Logf (l : level) (format : string) (args : list logval).

(** The package-level variables that change, and the number of
    [ReadFile] calls made so far. The gauge vectors are keyed by their
    labels [(device_id, hostname)]. *)
Record state := {
  sensors : list sensor;
  onewireDeviceList : list string;
  onewireTemperatureC : gmap (string * string) F;
  onewireTemperatureF : gmap (string * string) F;
  nreads : nat
}.

(** The state when [observeOnewireTemperature] starts: both slices are
    [nil] and no gauge has a value. *)
Definition initial : state := {|
  sensors := [];
  onewireDeviceList := [];
  onewireTemperatureC := ∅;
  onewireTemperatureF := ∅;
  nreads := 0
|}.

(** Assignment to one variable. *)
Definition with_sensors (l : list sensor) (s : state) : state :=
  {| sensors := l;
     onewireDeviceList := onewireDeviceList s;
     onewireTemperatureC := onewireTemperatureC s;
     onewireTemperatureF := onewireTemperatureF s;
     nreads := nreads s |}.
Definition with_onewireDeviceList (l : list string) (s : state) : state :=
  {| sensors := sensors s;
     onewireDeviceList := l;
     onewireTemperatureC := onewireTemperatureC s;
     onewireTemperatureF := onewireTemperatureF s;
     nreads := nreads s |}.
Definition with_TemperatureC (g : gmap (string * string) F) (s : state) : state :=
  {| sensors := sensors s;
     onewireDeviceList := onewireDeviceList s;
     onewireTemperatureC := g;
     onewireTemperatureF := onewireTemperatureF s;
     nreads := nreads s |}.
Definition with_TemperatureF (g : gmap (string * string) F) (s : state) : state :=
  {| sensors := sensors s;
     onewireDeviceList := onewireDeviceList s;
     onewireTemperatureC := onewireTemperatureC s;
     onewireTemperatureF := g;
     nreads := nreads s |}.
Definition with_nreads (n : nat) (s : state) : state :=
  {| sensors := sensors s;
     onewireDeviceList := onewireDeviceList s;
     onewireTemperatureC := onewireTemperatureC s;
     onewireTemperatureF := onewireTemperatureF s;
     nreads := n |}.

Inductive result (A : Type) :=
| Ok (a : A)
| Err (e : error).
Global Arguments Ok {A} a.
Global Arguments Err {A} e.

(** The outside world: the listing of the device directory, the
    content of each file at each [ReadFile] call (calls are numbered from
    0), the host name and the flag [export.fahrenheit]. *)
Record World := {
  dir_entries : result (list string);
  file_contents : nat -> string -> result string;
  hostname : string;
  enableFahrenheit : bool
}.

(** How a computation ends: it returns, the process exits
    ([log.Fatal] calls [os.Exit(1)]), or a run-time panic. *)
Inductive outcome (A : Type) :=
| Return (a : A)
| Exit (code : Z)
| Panic (msg : string).
Global Arguments Return {A} a.
Global Arguments Exit {A} code.
Global Arguments Panic {A} msg.

Definition M (A : Type) : Type := state -> outcome A * state * list event.

Definition ret {A} (a : A) : M A := fun s => (Return a, s, []).

Definition bind {A B} (m : M A) (f : A -> M B) : M B :=
  fun s =>
    match m s with
    | (Return a, s1, t1) =>
        match f a s1 with
        | (o, s2, t2) => (o, s2, t1 ++ t2)
        end
    | (Exit c, s1, t1) => (Exit c, s1, t1)
    | (Panic msg, s1, t1) => (Panic msg, s1, t1)
    end.

Global Instance M_ret : MRet M := @ret.
Global Instance M_bind : MBind M := fun A B f m => bind m f.

Definition emit (e : event) : M unit := fun s => (Return tt, s, [e]).
Definition gets {A} (f : state -> A) : M A := fun s => (Return (f s), s, []).
Definition modify (f : state -> state) : M unit := fun s => (Return tt, f s, []).
Definition os_Exit (code : Z) : M unit := fun s => (Exit code, s, []).
Definition panic {A} (msg : string) : M A := fun s => (Panic msg, s, []).

Definition outcome_of {A} (x : outcome A * state * list event) : outcome A := x.1.1.
Definition state_of {A} (x : outcome A * state * list event) : state := x.1.2.
Definition events_of {A} (x : outcome A * state * list event) : list event := x.2.

(** *** Collaborators *)

Definition log (l : level) (fields : list (string * logval)) (msg : string) : M unit :=
  emit (Log l fields msg).
Definition log_Infof (format : string) (args : list logval) : M unit :=
  emit (Logf InfoLevel format args).
(** [log.Fatal] and [log.Fatalf] write the entry and call [os.Exit(1)]. *)
Definition log_Fatal (msg : string) : M unit :=
  emit (Log FatalLevel [] msg);; os_Exit 1.
Definition log_Fatalf (format : string) (args : list logval) : M unit :=
  emit (Logf FatalLevel format args);; os_Exit 1.

Definition time_Sleep (seconds : nat) : M unit := emit (Sleep seconds).

Definition ioutil_ReadDir (w : World) (path : string) : M (result (list string)) :=
  emit (ReadDir path);; ret (dir_entries w).

Definition ioutil_ReadFile (w : World) (path : string) : M (result string) :=
  emit (ReadFile path);;
  n ← gets nreads;
  modify (with_nreads (S n));;
  ret (file_contents w n path).

(** [gauge.With(labels).Set(v)] *)
Definition set_TemperatureC (labels : string * string) (v : F) : M unit :=
  modify (fun s => with_TemperatureC (<[labels := v]> (onewireTemperatureC s)) s).
Definition set_TemperatureF (labels : string * string) (v : F) : M unit :=
  modify (fun s => with_TemperatureF (<[labels := v]> (onewireTemperatureF s)) s).

Definition set_sensors (l : list sensor) : M unit := modify (with_sensors l).
Definition set_onewireDeviceList (l : list string) : M unit :=
  modify (with_onewireDeviceList l).

(** *** The program *)

Definition onewireDevicePath : string := "/sys/bus/w1/devices/".

(** [func readOnewireDevicePayload(deviceID string) (float64, error)];
    [attempts] is [5 - retries], the iterations the [for] loop has left. *)
Fixpoint read_loop (w : World) (deviceID devicePayloadFile : string) (attempts : nat)
    : M (F * option error) :=
  match attempts with
  | O => ret (f_0, Some (errorString "Failed to read device"))
  | S attempts' =>
      r ← ioutil_ReadFile w devicePayloadFile;
      match r with
      | Err err =>
          log ErrorLevel [("devicePayloadFile", LString devicePayloadFile)] "Error reading Device";;
          ret (f_0, Some err)
      | Ok buffer =>
          match FindStringSubmatch re buffer with
          | Some match_ =>
              let value := (ParseFloat (default "" (match_ !! 1%nat))).1 in
              ret (fdiv value f_1000, None)
          | None =>
              log WarningLevel [("deviceID", LString deviceID); ("hostname", LString (hostname w))]
                "Retrying read";;
              time_Sleep 1;;
              read_loop w deviceID devicePayloadFile attempts'
          end
      end
  end.

Definition devicePayloadFile_of (deviceID : string) : string :=
  onewireDevicePath +:+ deviceID +:+ "/w1_slave".

Definition readOnewireDevicePayload (w : World) (deviceID : string) : M (F * option error) :=
  read_loop w deviceID (devicePayloadFile_of deviceID) 5.

(** [func createOnewireDeviceList() error] *)
Fixpoint add_devices (devices : list string) : M unit :=
  match devices with
  | [] => ret tt
  | device :: devices' =>
      (if negb (Contains device "w1_bus_master1")
       then l ← gets onewireDeviceList;
            set_onewireDeviceList (l ++ [device]);;
            log_Infof "Device found: %s" [LString device]
       else ret tt);;
      add_devices devices'
  end.

Definition zero_sensor : sensor :=
  {| SensorID := ""; SensorType := ""; SensorValue := f_0 |}.

Definition createOnewireDeviceList (w : World) : M (option error) :=
  r ← ioutil_ReadDir w onewireDevicePath;
  match r with
  | Err err =>
      log_Fatalf "Can't read device directory %v" [LError err];;
      ret None
  | Ok devices =>
      add_devices devices;;
      l ← gets onewireDeviceList;
      set_sensors (replicate (length l) zero_sensor);;
      ret None
  end.

(** The body of [for _, deviceID := range onewireDeviceList]. *)
Definition observe_device (w : World) (index : nat) (deviceID : string) : M unit :=
  '(value, err) ← readOnewireDevicePayload w deviceID;
  match err with
  | Some _ => log ErrorLevel [("deviceID", LString deviceID)] "Error reading from device"
  | None => ret tt
  end;;
  let fahrenheit := fahrenheit value in
  (if enableFahrenheit w
   then log InfoLevel [("deviceID", LString deviceID); ("value", LFloat value);
                       ("fahrenheit", LFloat fahrenheit); ("hostname", LString (hostname w))]
          "Value read from device"
   else log InfoLevel [("deviceID", LString deviceID); ("value", LFloat value);
                       ("hostname", LString (hostname w))]
          "Value read from device");;
  set_TemperatureC (deviceID, hostname w) value;;
  (if enableFahrenheit w
   then set_TemperatureF (deviceID, hostname w) fahrenheit
   else ret tt);;
  l ← gets sensors;
  (if decide (index < length l)%nat
   then set_sensors (<[index := {| SensorID := deviceID; SensorType := "temperature";
                                   SensorValue := value |}]> l)
   else panic "index out of range").

Fixpoint observe_devices (w : World) (devices : list string) (index : nat) : M unit :=
  match devices with
  | [] => ret tt
  | deviceID :: devices' =>
      observe_device w index deviceID;;
      observe_devices w devices' (S index)
  end.

(** [sensors = sensors[:len(onewireDeviceList)]]: the slice was made with
    capacity equal to its length, a longer bound panics. *)
Definition reslice : M unit :=
  l ← gets sensors;
  n ← gets (fun s => length (onewireDeviceList s));
  if decide (n <= length l)%nat
  then set_sensors (take n l)
  else panic "slice bounds out of range".

(** One iteration of the outer [for]: a pass over the devices and the
    sleep of 60 seconds. *)
Definition poll_pass (w : World) : M unit :=
  reslice;;
  devices ← gets onewireDeviceList;
  observe_devices w devices 0;;
  time_Sleep 60.

Fixpoint poll_passes (w : World) (n : nat) : M unit :=
  match n with
  | O => ret tt
  | S n' => poll_passes w n';; poll_pass w
  end.

Definition startup (w : World) : M unit :=
  err ← createOnewireDeviceList w;
  match err with
  | Some _ => log_Fatal "Error getting Onewire device list"
  | None => ret tt
  end.

(** [func observeOnewireTemperature()]: the loop never ends; the model
    runs its first [n] passes. *)
Definition observeOnewireTemperature (w : World) (n : nat) : M unit :=
  startup w;;
  poll_passes w n.

(** The prefix of the next pass that has processed [k] devices. *)
Definition partial_pass (w : World) (k : nat) : M unit :=
  reslice;;
  devices ← gets onewireDeviceList;
  observe_devices w (take k devices) 0.

(** The program after [n] full passes and [k] devices of the next one. *)
Definition observe_until (w : World) (n k : nat) : M unit :=
  observeOnewireTemperature w n;;
  partial_pass w k.

(** [func jsonPathHandler]: the handler marshals the package-level slice
    as it is when the request is served (the JSON text is not modelled). *)
Definition jsonPathHandler (s : state) : list sensor := sensors s.

End Exporter.

Arguments sensor F : clear implicits.
Arguments logval F : clear implicits.
Arguments event F : clear implicits.
Arguments state F : clear implicits.
Arguments M F A : clear implicits.

(** ** Specification-side vocabulary for the pattern *)

Definition is_digit (a : ascii) : bool := in_class (CRange "0" "9") a.

Fixpoint take_digits (s : string) : string :=
  match s with
  | String a s' => if is_digit a then String a (take_digits s') else ""
  | EmptyString => ""
  end.

Fixpoint drop_digits (s : string) : string :=
  match s with
  | String a s' => if is_digit a then drop_digits s' else s
  | EmptyString => ""
  end.

Fixpoint all_digits (s : string) : bool :=
  match s with
  | String a s' => is_digit a && all_digits s'
  | EmptyString => true
  end.

Definition starts_with_digit (s : string) : bool :=
  match s with
  | String a _ => is_digit a
  | EmptyString => false
  end.

(** [-?[0-9]+]: an optional minus sign and at least one decimal digit. *)
Definition is_integer (s : string) : bool :=
  match s with
  | String a s' =>
      if Ascii.eqb a "-"
      then negb (String.eqb s' "") && all_digits s'
      else all_digits s
  | EmptyString => false
  end.

(** The longest run of digits at the start of [s], when there is one, and
    the rest of the text. *)
Definition span_digits (s : string) : option (string * string) :=
  if starts_with_digit s then Some (take_digits s, drop_digits s) else None.

(** The longest integer at the start of [s] and the rest of the text. *)
Definition span_int (s : string) : option (string * string) :=
  match s with
  | String a s' =>
      if Ascii.eqb a "-"
      then '(ds, rest) ← span_digits s'; Some (String a ds, rest)
      else span_digits s
  | EmptyString => None
  end.

(** A field [t=<integer>] at the start of [s]: the integer and the rest. *)
Definition field_here (s : string) : option (string * string) :=
  match s with
  | String a (String b s') =>
      if Ascii.eqb a "t" && Ascii.eqb b "=" then span_int s' else None
  | _ => None
  end.

(** [s] contains a field [t=<integer>] after an occurrence of [YES]. *)
Definition has_field_after_yes (s : string) : Prop :=
  exists a b cap c,
    s = a +:+ "YES" +:+ b +:+ "t=" +:+ cap +:+ c /\ is_integer cap = true.

(** [s] contains a field [t=<integer>]. *)
Definition has_field (s : string) : Prop :=
  exists a cap c, s = a +:+ "t=" +:+ cap +:+ c /\ is_integer cap = true.

(** The tail of [re] after its first [.*], after [YES], and after the
    second [.*]. *)
Definition int_re : regex := Cat (Quest (One (CChar "-"))) (Plus (CRange "0" "9")).
Definition field_re : regex := Cat (Str "t=") (Group 1 int_re).
Definition any_field_re : regex := Cat (Star CAny) field_re.
Definition yes_re : regex := Cat (Str "YES") any_field_re.

(** The final continuation of [match_here re s]. *)
Definition submatches (s rest : string) (cs : gmap nat string) : option (list string) :=
  Some (consumed s rest :: map (fun i => default "" (cs !! i)) (seq 1 (NumSubexp re))).

(** Whether [s] contains a field, by search from the left. *)
Fixpoint contains_field (s : string) : bool :=
  match field_here s with
  | Some _ => true
  | None =>
      match s with
      | String _ s' => contains_field s'
      | EmptyString => false
      end
  end.


(** ** Vocabulary for traces *)

Section Traces.

Context {F : Type}.

(** The [ReadFile] calls of a trace. *)
Fixpoint attempts (t : list (event F)) : nat :=
  match t with
  | [] => 0
  | ReadFile _ :: t' => S (attempts t')
  | _ :: t' => attempts t'
  end.

(** The durations of the sleeps of a trace, in order. *)
Fixpoint sleeps (t : list (event F)) : list nat :=
  match t with
  | [] => []
  | Sleep n :: t' => n :: sleeps t'
  | _ :: t' => sleeps t'
  end.

Definition is_ReadDir (e : event F) : bool :=
  match e with ReadDir _ => true | _ => false end.

(** The [ReadDir] calls of a trace. *)
Definition ReadDir_calls (t : list (event F)) : nat :=
  length (List.filter is_ReadDir t).

(** The devices [createOnewireDeviceList] keeps, and its log entry for
    each. *)
Definition keep (device : string) : bool :=
  negb (Contains device "w1_bus_master1").
Definition found (device : string) : event F :=
  Logf InfoLevel "Device found: %s" [LString device].

(** One failed attempt of [readOnewireDevicePayload] followed by its
    warning and its pause. *)
Definition retry_round (w : World) (deviceID : string) : list (event F) :=
  [ReadFile (devicePayloadFile_of deviceID);
   Log WarningLevel [("deviceID", LString deviceID); ("hostname", LString (hostname w))]
     "Retrying read";
   Sleep 1].

Fixpoint retry_rounds (w : World) (deviceID : string) (n : nat) : list (event F) :=
  match n with
  | O => []
  | S n' => retry_round w deviceID ++ retry_rounds w deviceID n'
  end.

End Traces.

(** ** Vocabulary for runs of the program *)

Section Outcomes.

Context {F : Type} `{Float64 F}.

(** The state [createOnewireDeviceList] leaves when the directory lists
    [names]. *)
Definition discovered (names : list string) (s : state F) : state F :=
  let l := onewireDeviceList s ++ List.filter keep names in
  with_sensors (replicate (length l) zero_sensor) (with_onewireDeviceList l s).

Variable w : World.

(** The assignments of [observe_device] once the reading [value] is in. *)
Definition published (index : nat) (deviceID : string) (value : F) (s : state F) : state F :=
  let s1 := with_TemperatureC (<[(deviceID, hostname w) := value]> (onewireTemperatureC s)) s in
  let s2 := if enableFahrenheit w
            then with_TemperatureF
                   (<[(deviceID, hostname w) := fahrenheit value]> (onewireTemperatureF s1)) s1
            else s1 in
  with_sensors (<[index := {| SensorID := deviceID; SensorType := "temperature";
                              SensorValue := value |}]> (sensors s2)) s2.

(** The length of [sensors] matches the device list. *)
Definition ready (s : state F) : Prop :=
  length (sensors s) = length (onewireDeviceList s).

(** Every slot carries the identifier of its device and the type
    "temperature". *)
Definition tagged (s : state F) : Prop :=
  forall i d, onewireDeviceList s !! i = Some d ->
    exists v, sensors s !! i
              = Some {| SensorID := d; SensorType := "temperature"; SensorValue := v |}.

End Outcomes.

(** ** Example worlds *)

(** The text of a [w1_slave] file whose temperature field is [t]. *)
Definition w1_slave (t : string) : string :=
  "6d 01 4b 46 7f ff 03 10 5e : crc=5e YES" +:+
  String "010" ("6d 01 4b 46 7f ff 03 10 5e t=" +:+ t).

(** A host with two sensors and the bus master; the [n]-th [ReadFile] call
    returns the [n]-th element of [reads], and fails past the end. *)
Definition example_world (reads : list (result string)) (fahrenheit : bool) : World := {|
  dir_entries := Ok ["28-000001"; "28-000002"; "w1_bus_master1"];
  file_contents := fun n path => default (Err (PathError "open" path)) (reads !! n);
  hostname := "pi";
  enableFahrenheit := fahrenheit
|}.

(** Two passes that read 1.0 and 2.0, then 3.0 and 4.0 degrees. *)
Definition two_passes : World :=
  example_world [Ok (w1_slave "1000"); Ok (w1_slave "2000");
                 Ok (w1_slave "3000"); Ok (w1_slave "4000")] false.

(** A pass that reads 21.5 degrees from the first sensor, and a second
    pass in which the file of that sensor cannot be read. *)
Definition unreadable_in_second_pass : World :=
  example_world [Ok (w1_slave "21500"); Ok (w1_slave "-1062");
                 Err (PathError "open" "/sys/bus/w1/devices/28-000001/w1_slave");
                 Ok (w1_slave "-1125")] true.

(** ** Vocabulary for the further properties *)

(** The seconds a trace sleeps. *)
Definition slept {F} (t : list (event F)) : nat := sum_list (sleeps t).

(** The labels of the gauges of a list of devices. *)
Definition gauge_labels (w : World) (devices : list string) : list (string * string) :=
  (fun d => (d, hostname w)) <$> devices.

(** ** Facts about strings *)

Lemma app_cons (a : ascii) (s t : string) : String a s +:+ t = String a (s +:+ t).
Proof. reflexivity. Qed.

Lemma app_empty_l (s : string) : "" +:+ s = s.
Proof. reflexivity. Qed.

Lemma app_empty_r (s : string) : s +:+ "" = s.
Proof. induction s as [|a s IH]; [reflexivity|]. by rewrite app_cons, IH. Qed.

Lemma app_assoc_s (s t u : string) : (s +:+ t) +:+ u = s +:+ t +:+ u.
Proof. induction s as [|a s IH]; [reflexivity|]. by rewrite !app_cons, IH. Qed.

Lemma length_app_s (s t : string) :
  String.length (s +:+ t) = (String.length s + String.length t)%nat.
Proof. induction s as [|a s IH]; [reflexivity|]. rewrite app_cons. simpl. by rewrite IH. Qed.

Lemma substring_app (u v : string) : substring 0 (String.length u) (u +:+ v) = u.
Proof.
  induction u as [|a u IH]; simpl.
  - by destruct v.
  - by rewrite IH.
Qed.

Lemma consumed_app (u v : string) : consumed (u +:+ v) v = u.
Proof.
  unfold consumed. rewrite length_app_s.
  replace (String.length u + String.length v - String.length v)%nat
    with (String.length u) by lia.
  apply substring_app.
Qed.

Lemma prefix_app_s (lit s : string) : String.prefix lit (lit +:+ s) = true.
Proof.
  induction lit as [|a lit IH]; simpl; [by destruct s|].
  destruct (ascii_dec a a); [done|congruence].
Qed.

Lemma prefix_inv_s (lit s : string) :
  String.prefix lit s = true -> exists s', s = lit +:+ s'.
Proof.
  revert s. induction lit as [|a lit IH]; intros s Hp.
  - by exists s.
  - destruct s as [|b s]; simpl in Hp; [done|].
    destruct (ascii_dec a b) as [->|]; [|done].
    destruct (IH _ Hp) as [s' ->]. by exists s'.
Qed.

(** Two ways of cutting one string: the cuts are nested. *)
Lemma app_eq_app_s (u1 v1 u2 v2 : string) :
  u1 +:+ v1 = u2 +:+ v2 ->
  (exists z, u2 = u1 +:+ z /\ v1 = z +:+ v2) \/
  (exists z, z <> "" /\ u1 = u2 +:+ z /\ v2 = z +:+ v1).
Proof.
  revert u2. induction u1 as [|a u1 IH]; intros u2 Heq.
  - left. exists u2. by rewrite app_empty_l in *.
  - destruct u2 as [|b u2].
    + right. exists (String a u1). by rewrite app_empty_l in *.
    + rewrite !app_cons in Heq. injection Heq as -> Heq.
      destruct (IH _ Heq) as [(z & -> & ->)|(z & Hz & -> & ->)].
      * left. by exists z.
      * right. by exists z.
Qed.

(** ** Facts about the matcher *)

Lemma star_any_none {A} (k : string -> option A) (s : string) :
  star (in_class CAny) k s = None -> forall u v, s = u +:+ v -> k v = None.
Proof.
  induction s as [|a s IH]; simpl; intros Hn u v Heq.
  - destruct u; [|done]. by rewrite app_empty_l in Heq; subst.
  - destruct (star (in_class CAny) k s) eqn:Hs; [done|].
    destruct u as [|b u].
    + by rewrite app_empty_l in Heq; subst.
    + rewrite app_cons in Heq. injection Heq as -> ->. by eapply IH.
Qed.

Lemma star_any_some {A} (k : string -> option A) (s : string) (m : A) :
  star (in_class CAny) k s = Some m ->
  exists u v, s = u +:+ v /\ k v = Some m /\
    forall z v', z <> "" -> v = z +:+ v' -> k v' = None.
Proof.
  induction s as [|a s IH]; simpl; intros Hs.
  - exists "", "". split_and!; [done..|].
    intros [|] v' ? Heq; [done|by rewrite app_cons in Heq].
  - destruct (star (in_class CAny) k s) as [m'|] eqn:Hstar.
    + injection Hs as ->. destruct (IH eq_refl) as (u & v & -> & Hk & Hlast).
      by exists (String a u), v.
    + exists "", (String a s). split_and!; [done..|].
      intros [|b z] v' Hz Heq; [done|].
      rewrite app_cons in Heq. injection Heq as -> ->.
      by eapply star_any_none.
Qed.

Lemma star_digits {A} (k : string -> option A) (s : string) :
  (forall s', is_Some (k s')) -> star is_digit k s = k (drop_digits s).
Proof.
  intros Hk. induction s as [|a s IH]; simpl; [done|].
  destruct (is_digit a); [|done].
  rewrite IH. by destruct (Hk (drop_digits s)) as [m ->].
Qed.

Lemma exec_Str_app {A} (lit : string) (r : regex) s cs (k : string -> gmap nat string -> option A) :
  exec (Cat (Str lit) r) (lit +:+ s) cs k = exec r s cs k.
Proof.
  induction lit as [|a lit IH]; [done|].
  simpl in *. unfold in_class. by rewrite Ascii.eqb_refl.
Qed.

Lemma exec_Str_inv {A} (lit : string) (r : regex) s cs
    (k : string -> gmap nat string -> option A) (m : A) :
  exec (Cat (Str lit) r) s cs k = Some m ->
  exists s', s = lit +:+ s' /\ exec r s' cs k = Some m.
Proof.
  revert s. induction lit as [|a lit IH]; intros s Hs.
  - by exists s.
  - simpl in Hs. destruct s as [|b s]; [done|].
    unfold in_class in Hs.
    destruct (Ascii.eqb b a) eqn:Hab; [|done].
    apply Ascii.eqb_eq in Hab as ->.
    destruct (IH _ Hs) as (s' & -> & Hr). by exists s'.
Qed.

(** *** Integers at the start of a text *)

Lemma take_drop_digits (s : string) : take_digits s +:+ drop_digits s = s.
Proof.
  induction s as [|a s IH]; simpl; [done|].
  destruct (is_digit a); [|done]. by rewrite app_cons, IH.
Qed.

Lemma all_digits_take (s : string) : all_digits (take_digits s) = true.
Proof.
  induction s as [|a s IH]; simpl; [done|].
  destruct (is_digit a) eqn:Ha; simpl; [|done]. by rewrite Ha.
Qed.

Lemma drop_digits_no_digit (s : string) : starts_with_digit (drop_digits s) = false.
Proof.
  induction s as [|a s IH]; simpl; [done|].
  by destruct (is_digit a) eqn:Ha; simpl.
Qed.

Lemma take_digits_app (ds c : string) :
  all_digits ds = true -> starts_with_digit c = false ->
  take_digits (ds +:+ c) = ds /\ drop_digits (ds +:+ c) = c.
Proof.
  intros Hds Hc. induction ds as [|a ds IH]; simpl in *.
  - destruct c as [|b c]; simpl in *; [done|]. by rewrite Hc.
  - apply andb_true_iff in Hds as [-> Hds]. destruct (IH Hds) as [-> ->]. done.
Qed.

Lemma minus_not_digit : is_digit "-" = false.
Proof. reflexivity. Qed.

Lemma span_digits_inv (s ds rest : string) :
  span_digits s = Some (ds, rest) ->
  s = ds +:+ rest /\ ds <> "" /\ all_digits ds = true /\ starts_with_digit ds = true /\
  starts_with_digit rest = false.
Proof.
  unfold span_digits. destruct (starts_with_digit s) eqn:Hs; [|done].
  intros [= <- <-]. split_and!.
  - by rewrite take_drop_digits.
  - destruct s; simpl in *; [done|]. by rewrite Hs.
  - apply all_digits_take.
  - destruct s; simpl in *; [done|]. by rewrite Hs.
  - apply drop_digits_no_digit.
Qed.

Lemma span_int_inv (s cap rest : string) :
  span_int s = Some (cap, rest) ->
  s = cap +:+ rest /\ is_integer cap = true /\ starts_with_digit rest = false.
Proof.
  destruct s as [|a s]; [done|]. unfold span_int.
  destruct (Ascii.eqb a "-") eqn:Ha.
  - destruct (span_digits s) as [[ds r]|] eqn:Hsp; [|done]. simpl.
    intros [= <- <-].
    destruct (span_digits_inv _ _ _ Hsp) as (-> & Hne & Hall & _ & Hr).
    split_and!; [done| |done].
    unfold is_integer. rewrite Ha, Hall.
    destruct ds; [done|]. done.
  - intros Hsp.
    destruct (span_digits_inv _ _ _ Hsp) as (Heq & Hne & Hall & Hd & Hr).
    split_and!; [done| |done].
    destruct cap as [|b cap]; [done|]. rewrite app_cons in Heq. injection Heq as <- _.
    unfold is_integer. by rewrite Ha.
Qed.

Lemma is_integer_inv (cap : string) :
  is_integer cap = true ->
  (exists ds, cap = String "-" ds /\ starts_with_digit ds = true /\ all_digits ds = true) \/
  (starts_with_digit cap = true /\ all_digits cap = true).
Proof.
  destruct cap as [|a cap]; [done|]. unfold is_integer.
  destruct (Ascii.eqb a "-") eqn:Ha.
  - apply Ascii.eqb_eq in Ha as ->. intros [Hne Hall]%andb_true_iff.
    left. exists cap. split_and!; [done| |done].
    destruct cap as [|b cap]; [done|]. simpl in *. by apply andb_true_iff in Hall as [-> _].
  - intros Hall. right. split; [|done]. simpl in *. by apply andb_true_iff in Hall as [-> _].
Qed.

Lemma span_digits_app (ds c : string) :
  starts_with_digit ds = true -> all_digits ds = true -> starts_with_digit c = false ->
  span_digits (ds +:+ c) = Some (ds, c).
Proof.
  intros Hd Hall Hc. unfold span_digits.
  destruct (take_digits_app ds c Hall Hc) as [-> ->].
  destruct ds as [|a ds]; [done|]. rewrite app_cons. simpl in *. by rewrite Hd.
Qed.

Lemma span_int_app (cap c : string) :
  is_integer cap = true -> starts_with_digit c = false ->
  span_int (cap +:+ c) = Some (cap, c).
Proof.
  intros [(ds & -> & Hd & Hall)|[Hd Hall]]%is_integer_inv Hc.
  - rewrite app_cons. unfold span_int. rewrite Ascii.eqb_refl.
    by rewrite (span_digits_app ds c).
  - destruct cap as [|a cap]; [done|]. rewrite app_cons. unfold span_int.
    destruct (Ascii.eqb a "-") eqn:Ha.
    { apply Ascii.eqb_eq in Ha as ->. done. }
    rewrite <- app_cons. by apply span_digits_app.
Qed.

(** An integer followed by any text starts a (possibly longer) integer. *)
Lemma span_int_is_Some (cap c : string) :
  is_integer cap = true -> is_Some (span_int (cap +:+ c)).
Proof.
  intros Hcap.
  assert (Hsplit : cap +:+ c = (cap +:+ take_digits c) +:+ drop_digits c).
  { by rewrite app_assoc_s, take_drop_digits. }
  rewrite Hsplit. rewrite span_int_app; [done| |apply drop_digits_no_digit].
  assert (Happ : forall ds, all_digits ds = true -> all_digits (ds +:+ take_digits c) = true).
  { induction ds as [|b ds IH]; simpl.
    - intros _. apply all_digits_take.
    - intros [-> ?]%andb_true_iff. simpl. auto. }
  apply is_integer_inv in Hcap as [(ds & -> & Hd & Hall)|[Hd Hall]].
  - rewrite app_cons. unfold is_integer. rewrite Ascii.eqb_refl, Happ by done.
    destruct ds; [done|]. done.
  - destruct cap as [|a cap]; [done|]. rewrite app_cons. unfold is_integer.
    destruct (Ascii.eqb a "-") eqn:Ha.
    { apply Ascii.eqb_eq in Ha as ->. done. }
    rewrite <- app_cons. by apply Happ.
Qed.

(** *** The tail of the pattern *)

Lemma exec_One {A} (c : cclass) (a : ascii) (s : string) cs
    (k : string -> gmap nat string -> option A) :
  exec (One c) (String a s) cs k = if in_class c a then k s cs else None.
Proof. reflexivity. Qed.

Section Tail.

Context {A : Type} (k : string -> gmap nat string -> option A).
Hypothesis k_total : forall s cs, is_Some (k s cs).

Lemma exec_Plus_digits (s : string) (cs : gmap nat string)
    (k' : string -> gmap nat string -> option A) :
  (forall s' cs', is_Some (k' s' cs')) ->
  exec (Plus (CRange "0" "9")) s cs k' =
    match span_digits s with
    | Some (_, rest) => k' rest cs
    | None => None
    end.
Proof.
  intros Hk'. destruct s as [|a s]; [done|].
  unfold span_digits. simpl. fold (is_digit a).
  destruct (is_digit a) eqn:Ha; [|done].
  change (in_class (CRange "0" "9")) with is_digit.
  by rewrite star_digits.
Qed.

Lemma exec_int (s : string) (cs : gmap nat string) :
  exec (Group 1 int_re) s cs k =
    match span_int s with
    | Some (cap, rest) => k rest (<[1%nat := cap]> cs)
    | None => None
    end.
Proof.
  set (k' := fun s' cs' => k s' (<[1%nat := consumed s s']> cs')).
  assert (Hk' : forall s' cs', is_Some (k' s' cs')) by (intros; apply k_total).
  change (exec (Group 1 int_re) s cs k)
    with (match exec (One (CChar "-")) s cs (fun s' cs' => exec (Plus (CRange "0" "9")) s' cs' k') with
          | Some m => Some m
          | None => exec (Plus (CRange "0" "9")) s cs k'
          end).
  destruct s as [|a s]; [done|].
  unfold span_int. rewrite exec_One. unfold in_class at 1. cbv beta.
  rewrite !exec_Plus_digits by done.
  destruct (Ascii.eqb a "-") eqn:Ha.
  - apply Ascii.eqb_eq in Ha as ->.
    destruct (span_digits s) as [[ds rest]|] eqn:Hsp.
    + destruct (span_digits_inv _ _ _ Hsp) as (Heq & _).
      unfold k'. rewrite Heq at 1. rewrite <- app_cons, consumed_app.
      cbn [mbind option_bind].
      by destruct (k_total rest (<[1%nat:=String "-" ds]> cs)) as [m ->].
    + done.
  -
    destruct (span_digits (String a s)) as [[ds rest]|] eqn:Hsp; [|done].
    destruct (span_digits_inv _ _ _ Hsp) as (Heq & _).
    unfold k'. by rewrite Heq, consumed_app.
Qed.

Lemma exec_field (s : string) (cs : gmap nat string) :
  exec field_re s cs k =
    match field_here s with
    | Some (cap, rest) => k rest (<[1%nat := cap]> cs)
    | None => None
    end.
Proof.
  unfold field_re, field_here.
  destruct s as [|a [|b s]]; simpl; unfold in_class;
    [done|by destruct (Ascii.eqb a "t")|].
  destruct (Ascii.eqb a "t"); [|done].
  destruct (Ascii.eqb b "="); [|done]. simpl.
  apply exec_int.
Qed.

End Tail.

Lemma field_here_inv (s cap rest : string) :
  field_here s = Some (cap, rest) ->
  s = "t=" +:+ cap +:+ rest /\ is_integer cap = true /\ starts_with_digit rest = false.
Proof.
  unfold field_here. destruct s as [|a [|b s]]; [done..|].
  destruct (Ascii.eqb a "t") eqn:Ha; [|done].
  destruct (Ascii.eqb b "=") eqn:Hb; [|done]. simpl.
  apply Ascii.eqb_eq in Ha as ->. apply Ascii.eqb_eq in Hb as ->.
  intros (-> & ? & ?)%span_int_inv. done.
Qed.

Lemma field_here_t (s : string) : field_here ("t=" +:+ s) = span_int s.
Proof. reflexivity. Qed.

Lemma field_here_app (cap c : string) :
  is_integer cap = true -> starts_with_digit c = false ->
  field_here ("t=" +:+ cap +:+ c) = Some (cap, c).
Proof. intros. rewrite field_here_t. by apply span_int_app. Qed.

Lemma field_here_is_Some (cap c : string) :
  is_integer cap = true -> is_Some (field_here ("t=" +:+ cap +:+ c)).
Proof. intros. rewrite field_here_t. by apply span_int_is_Some. Qed.

Lemma field_here_head (a : ascii) (s : string) :
  is_Some (field_here (String a s)) -> a = "t"%char.
Proof.
  intros [x Hx]. unfold field_here in Hx. destruct s; [done|].
  destruct (Ascii.eqb a "t") eqn:Ha; [|done]. by apply Ascii.eqb_eq in Ha.
Qed.

(** No field starts inside [=<integer>]: it would have to start with [t]. *)
Lemma field_here_inside (cap c z v : string) :
  is_integer cap = true -> z <> "" ->
  "t=" +:+ cap +:+ c = z +:+ v ->
  is_Some (field_here v) -> exists c1, c = c1 +:+ v.
Proof.
  intros Hcap Hz Heq Hv.
  assert (Hchars : forall ds u x y, all_digits ds = true -> ds +:+ u = x +:+ y ->
            is_Some (field_here y) -> exists c1, u = c1 +:+ y).
  { induction ds as [|d ds IH]; intros u x y Hall Hxy Hy.
    - by exists x.
    - simpl in Hall. apply andb_true_iff in Hall as [Hd Hall].
      destruct x as [|b x].
      + rewrite app_empty_l in Hxy. subst y. rewrite app_cons in Hy.
        apply field_here_head in Hy as ->. done.
      + rewrite !app_cons in Hxy. injection Hxy as <- Hxy. by eapply IH. }
  destruct z as [|z0 z]; [done|].
  change ("t=" +:+ cap +:+ c) with (String "t" (String "=" (cap +:+ c))) in Heq.
  rewrite app_cons in Heq. injection Heq as <- Heq.
  destruct z as [|z1 z].
  { rewrite app_empty_l in Heq. subst v. by apply field_here_head in Hv. }
  rewrite app_cons in Heq. injection Heq as <- Heq.
  apply is_integer_inv in Hcap as [(ds & -> & Hd & Hall)|[Hd Hall]].
  - rewrite app_cons in Heq. destruct z as [|z2 z].
    { rewrite app_empty_l in Heq. subst v. by apply field_here_head in Hv. }
    rewrite app_cons in Heq. injection Heq as <- Heq. by eapply Hchars.
  - by eapply Hchars.
Qed.

(** *** The whole pattern *)

Lemma submatches_total (s rest : string) (cs : gmap nat string) :
  is_Some (submatches s rest cs).
Proof. by eexists. Qed.

Lemma match_here_re (s : string) :
  match_here re s =
    star (in_class CAny) (fun s1 => exec yes_re s1 ∅ (submatches s)) s.
Proof. reflexivity. Qed.

Lemma exec_any_field {A} (s : string) cs (k : string -> gmap nat string -> option A) :
  exec any_field_re s cs k = star (in_class CAny) (fun s3 => exec field_re s3 cs k) s.
Proof. reflexivity. Qed.

Lemma match_here_inv (s : string) (m : list string) :
  match_here re s = Some m ->
  exists a b cap c,
    s = a +:+ "YES" +:+ b +:+ "t=" +:+ cap +:+ c /\
    is_integer cap = true /\ starts_with_digit c = false /\
    m = [a +:+ "YES" +:+ b +:+ "t=" +:+ cap; cap] /\
    forall z v, z <> "" -> "t=" +:+ cap +:+ c = z +:+ v -> field_here v = None.
Proof.
  rewrite match_here_re.
  intros (a & v & -> & Hyes & _)%star_any_some.
  apply exec_Str_inv in Hyes as (s2 & -> & Hany).
  rewrite exec_any_field in Hany.
  apply star_any_some in Hany as (b & v3 & -> & Hfield & Hlast).
  rewrite exec_field in Hfield by apply submatches_total.
  destruct (field_here v3) as [[cap c]|] eqn:Hv3; [|done].
  apply field_here_inv in Hv3 as (-> & Hcap & Hc).
  exists a, b, cap, c. split_and!; [done..| |].
  - injection Hfield as <-. f_equal.
    rewrite <- (consumed_app (a +:+ "YES" +:+ b +:+ "t=" +:+ cap) c).
    by rewrite !app_assoc_s.
  - intros z v Hz Heq. specialize (Hlast z v Hz Heq).
    rewrite exec_field in Hlast by apply submatches_total.
    by destruct (field_here v) as [[??]|].
Qed.

Lemma match_here_is_Some (s : string) :
  has_field_after_yes s -> is_Some (match_here re s).
Proof.
  intros (a & b & cap & c & -> & Hcap).
  destruct (match_here re _) as [m|] eqn:Hm; [done|exfalso].
  rewrite match_here_re in Hm.
  eapply star_any_none in Hm; [|reflexivity].
  cbv beta in Hm. unfold yes_re in Hm.
  rewrite exec_Str_app, exec_any_field in Hm.
  eapply star_any_none in Hm; [|reflexivity].
  cbv beta in Hm.
  rewrite exec_field in Hm by apply submatches_total.
  destruct (field_here_is_Some cap c Hcap) as [[cap' c'] Hf].
  by rewrite Hf in Hm.
Qed.

Lemma has_field_after_yes_cons (a : ascii) (s : string) :
  has_field_after_yes s -> has_field_after_yes (String a s).
Proof.
  intros (a0 & b & cap & c & -> & Hcap). by exists (String a a0), b, cap, c.
Qed.

Lemma match_here_has_field (s : string) (m : list string) :
  match_here re s = Some m -> has_field_after_yes s.
Proof.
  intros (a & b & cap & c & -> & Hcap & _)%match_here_inv. by exists a, b, cap, c.
Qed.

Lemma FindStringSubmatch_nil (r : regex) :
  FindStringSubmatch r "" = match_here r "".
Proof. unfold FindStringSubmatch. by destruct (match_here r ""). Qed.

Lemma FindStringSubmatch_cons (r : regex) (a : ascii) (s : string) :
  FindStringSubmatch r (String a s) =
    match match_here r (String a s) with
    | Some m => Some m
    | None => FindStringSubmatch r s
    end.
Proof. reflexivity. Qed.

(** The pattern starts with [.*]: the leftmost match, when there is one,
    starts at the beginning of the text. *)
Lemma FindStringSubmatch_re (s : string) :
  FindStringSubmatch re s = match_here re s.
Proof.
  induction s as [|a s IH].
  - apply FindStringSubmatch_nil.
  - rewrite FindStringSubmatch_cons.
    destruct (match_here re (String a s)) as [m|] eqn:Hm; [done|].
    rewrite IH. destruct (match_here re s) as [m'|] eqn:Hm'; [|done].
    apply match_here_has_field, (has_field_after_yes_cons a), match_here_is_Some in Hm'.
    rewrite Hm in Hm'. by destruct Hm'.
Qed.

(** *** Deciding whether a text contains a field *)

Lemma contains_field_cons (a : ascii) (s : string) :
  contains_field (String a s) =
    match field_here (String a s) with
    | Some _ => true
    | None => contains_field s
    end.
Proof. reflexivity. Qed.

Lemma contains_field_has_field (s : string) :
  contains_field s = true <-> has_field s.
Proof.
  split.
  - induction s as [|a s IH]; [done|].
    rewrite contains_field_cons.
    destruct (field_here (String a s)) as [[cap c]|] eqn:Hf.
    + intros _. apply field_here_inv in Hf as (Heq & Hcap & _).
      exists "", cap, c. by rewrite app_empty_l.
    + intros (a0 & cap & c & -> & Hcap)%IH. by exists (String a a0), cap, c.
  - intros (a & cap & c & -> & Hcap).
    induction a as [|a0 a IH].
    + rewrite app_empty_l.
      destruct (field_here_is_Some cap c Hcap) as [x Hx].
      change ("t=" +:+ cap +:+ c) with (String "t" (String "=" (cap +:+ c))) in *.
      by rewrite contains_field_cons, Hx.
    + rewrite app_cons, contains_field_cons, IH. by destruct (field_here _).
Qed.

Lemma pattern_last_field (a b cap c : string) :
  is_integer cap = true -> starts_with_digit c = false -> ~ has_field c ->
  FindStringSubmatch re (a +:+ "YES" +:+ b +:+ "t=" +:+ cap +:+ c)
  = Some [a +:+ "YES" +:+ b +:+ "t=" +:+ cap; cap].
Proof.
  intros Hcap Hc Hnone. rewrite FindStringSubmatch_re.
  destruct (match_here_is_Some (a +:+ "YES" +:+ b +:+ "t=" +:+ cap +:+ c)) as [m Hm];
    [by exists a, b, cap, c|].
  rewrite Hm. f_equal.
  apply match_here_inv in Hm as (a' & b' & cap' & c' & Heq & Hcap' & Hc' & -> & Hlast).
  assert (Hfield : "t=" +:+ cap' +:+ c' = "t=" +:+ cap +:+ c).
  { rewrite <- !(app_assoc_s a), <- !(app_assoc_s a') in Heq.
    rewrite <- !(app_assoc_s (a +:+ "YES")), <- !(app_assoc_s (a' +:+ "YES")) in Heq.
    apply app_eq_app_s in Heq as [(z & Hz & Hv)|(z & Hz & Hu & Hv)].
    - (* the match found starts at or after the given field *)
      destruct z as [|z0 z]; [by rewrite app_empty_l in Hv|].
      destruct (field_here_inside cap c (String z0 z) ("t=" +:+ cap' +:+ c') Hcap)
        as [c1 Hc1]; [done|done|by apply field_here_is_Some|].
      destruct Hnone. by exists c1, cap', c'.
    - (* the match found starts before the given field: not the last one *)
      specialize (Hlast z ("t=" +:+ cap +:+ c) Hz Hv).
      by rewrite field_here_app in Hlast. }
  assert (Hcc : cap' = cap /\ c' = c).
  { apply (f_equal field_here) in Hfield.
    rewrite !field_here_app in Hfield by done. by injection Hfield. }
  destruct Hcc as [-> ->].
  f_equal.
  assert (Hpre : (a +:+ "YES" +:+ b +:+ "t=" +:+ cap) +:+ c
                 = (a' +:+ "YES" +:+ b' +:+ "t=" +:+ cap) +:+ c).
  { by rewrite !app_assoc_s. }
  apply (f_equal (fun s => consumed s c)) in Hpre.
  by rewrite !consumed_app in Hpre.
Qed.

(** ** Facts about the effects *)

Section Runs.

Context {F : Type} `{Float64 F}.

(** [runs m s a s' t]: from [s], [m] returns [a] in state [s'] after the
    events [t]. *)
Definition runs {A} (m : M F A) (s : state F) (a : A) (s' : state F) (t : list (event F)) : Prop :=
  m s = (Return a, s', t).

Lemma runs_ret {A} (a : A) s : runs (ret a) s a s [].
Proof. reflexivity. Qed.

Lemma runs_bind {A B} (m : M F A) (f : A -> M F B) s a s1 t1 b s2 t2 :
  runs m s a s1 t1 -> runs (f a) s1 b s2 t2 -> runs (m ≫= f) s b s2 (t1 ++ t2).
Proof.
  unfold runs, mbind, M_bind, bind. intros -> ->. done.
Qed.

Lemma runs_bind_inv {A B} (m : M F A) (f : A -> M F B) s b s2 t :
  runs (m ≫= f) s b s2 t ->
  exists a s1 t1 t2, runs m s a s1 t1 /\ runs (f a) s1 b s2 t2 /\ t = t1 ++ t2.
Proof.
  unfold runs, mbind, M_bind, bind.
  destruct (m s) as [[[a| |] s1] t1]; [|done..].
  destruct (f a s1) as [[o s2'] t2] eqn:Hf. intros [= -> -> <-].
  by exists a, s1, t1, t2.
Qed.


Lemma runs_emit e s : runs (emit e) s tt s [e].
Proof. reflexivity. Qed.

Lemma runs_gets {A} (f : state F -> A) s : runs (gets f) s (f s) s [].
Proof. reflexivity. Qed.

Lemma runs_modify (f : state F -> state F) s : runs (modify f) s tt (f s) [].
Proof. reflexivity. Qed.

Lemma runs_outcome {A} (m : M F A) s a s' t :
  runs m s a s' t ->
  outcome_of (m s) = Return a /\ state_of (m s) = s' /\ events_of (m s) = t.
Proof. unfold runs. by intros ->. Qed.

(** Bind is associative, state by state. *)
Lemma bind_assoc {A B C} (m : M F A) (f : A -> M F B) (g : B -> M F C) s :
  ((m ≫= f) ≫= g) s = (m ≫= (fun a => f a ≫= g)) s.
Proof.
  unfold mbind, M_bind, bind.
  destruct (m s) as [[[a| |] s1] t1]; [|done..].
  destruct (f a s1) as [[[b| |] s2] t2]; [|done..].
  destruct (g b s2) as [[o s3] t3]. by rewrite app_assoc.
Qed.

Lemma with_nreads_id (s : state F) : with_nreads (nreads s) s = s.
Proof. by destruct s. Qed.

Lemma with_nreads_twice (a b : nat) (s : state F) :
  with_nreads a (with_nreads b s) = with_nreads a s.
Proof. reflexivity. Qed.

(** *** [readOnewireDevicePayload] *)

Section ReadLoop.

Variables (w : World) (deviceID : string).
Let path := devicePayloadFile_of deviceID.

Lemma runs_ReadFile s :
  runs (ioutil_ReadFile w path) s (file_contents w (nreads s) path)
    (with_nreads (S (nreads s)) s) [ReadFile path].
Proof. reflexivity. Qed.

Lemma read_loop_exhausted s :
  runs (read_loop w deviceID path 0) s
    (f_0, Some (errorString "Failed to read device")) s [].
Proof. reflexivity. Qed.

Lemma read_loop_match n s buffer m :
  file_contents w (nreads s) path = Ok buffer ->
  FindStringSubmatch re buffer = Some m ->
  runs (read_loop w deviceID path (S n)) s
    (fdiv (ParseFloat (default "" (m !! 1%nat))).1 f_1000, None)
    (with_nreads (S (nreads s)) s) [ReadFile path].
Proof.
  intros Hfile Hm. unfold runs. cbn [read_loop].
  unfold mbind, M_bind, bind. rewrite runs_ReadFile, Hfile, Hm. done.
Qed.

Lemma read_loop_io_error n s e :
  file_contents w (nreads s) path = Err e ->
  runs (read_loop w deviceID path (S n)) s (f_0, Some e)
    (with_nreads (S (nreads s)) s)
    [ReadFile path;
     Log ErrorLevel [("devicePayloadFile", LString path)] "Error reading Device"].
Proof.
  intros Hfile. unfold runs. cbn [read_loop].
  unfold mbind, M_bind, bind. rewrite runs_ReadFile, Hfile. done.
Qed.

Lemma read_loop_mismatch n s buffer r s' t :
  file_contents w (nreads s) path = Ok buffer ->
  FindStringSubmatch re buffer = None ->
  runs (read_loop w deviceID path n) (with_nreads (S (nreads s)) s) r s' t ->
  runs (read_loop w deviceID path (S n)) s r s' (retry_round w deviceID ++ t).
Proof.
  intros Hfile Hm Hrest. unfold runs. cbn [read_loop].
  unfold mbind, M_bind, bind. rewrite runs_ReadFile, Hfile, Hm.
  unfold log, time_Sleep, emit. by rewrite Hrest.
Qed.

(** [k] attempts that read a text without a match: [k] rounds of
    read, warning and pause, then the loop goes on. *)
Lemma read_loop_retries k : forall n s r s' t,
  (forall i, (i < k)%nat -> exists buffer,
      file_contents w (nreads s + i) path = Ok buffer /\
      FindStringSubmatch re buffer = None) ->
  runs (read_loop w deviceID path n) (with_nreads (nreads s + k) s) r s' t ->
  runs (read_loop w deviceID path (k + n)) s r s' (retry_rounds w deviceID k ++ t).
Proof.
  induction k as [|k IH]; intros n s r s' t Hfail Hrest.
  - by rewrite Nat.add_0_r, with_nreads_id in Hrest.
  - destruct (Hfail 0%nat) as (buffer & Hfile & Hm); [lia|].
    rewrite Nat.add_0_r in Hfile.
    cbn [retry_rounds Nat.add]. rewrite <- app_assoc.
    eapply read_loop_mismatch; [done..|].
    apply IH.
    + intros i Hi. destruct (Hfail (S i)) as (b & Hb & Hmb); [lia|].
      exists b. split; [|done]. simpl. by rewrite <- Nat.add_succ_r.
    + simpl. rewrite with_nreads_twice.
      by replace (S (nreads s + k)) with (nreads s + S k)%nat by lia.
Qed.

(** The loop returns, whatever the files hold, and touches nothing but
    the count of reads. *)
Lemma read_loop_returns n : forall s,
  exists v e t, runs (read_loop w deviceID path n) s (v, e)
                  (with_nreads (nreads (state_of (read_loop w deviceID path n s))) s) t /\
                (attempts t <= n)%nat /\
                (is_Some e -> v = f_0) /\
                ReadDir_calls t = 0%nat.
Proof.
  induction n as [|n IH]; intros s.
  - eexists _, _, _. split; [|split_and!].
    + rewrite (proj1 (proj2 (runs_outcome _ _ _ _ _ (read_loop_exhausted s)))).
      rewrite with_nreads_id. apply read_loop_exhausted.
    + done.
    + done.
    + done.
  - destruct (file_contents w (nreads s) path) as [buffer|e] eqn:Hfile.
    + destruct (FindStringSubmatch re buffer) as [m|] eqn:Hm.
      * pose proof (read_loop_match n s buffer m Hfile Hm) as Hr.
        eexists _, _, _. split_and!.
        -- rewrite (proj1 (proj2 (runs_outcome _ _ _ _ _ Hr))). exact Hr.
        -- simpl. lia.
        -- by intros [??].
        -- done.
      * destruct (IH (with_nreads (S (nreads s)) s)) as (v & e & t & Hr & Hatt & Hv & Hrd).
        pose proof (read_loop_mismatch n s buffer _ _ _ Hfile Hm Hr) as Hr'.
        exists v, e, (retry_round w deviceID ++ t). split_and!.
        -- rewrite (proj1 (proj2 (runs_outcome _ _ _ _ _ Hr'))). exact Hr'.
        -- simpl. lia.
        -- done.
        -- done.
    + pose proof (read_loop_io_error n s e Hfile) as Hr.
      eexists _, _, _. split_and!.
      -- rewrite (proj1 (proj2 (runs_outcome _ _ _ _ _ Hr))). exact Hr.
      -- simpl. lia.
      -- done.
      -- done.
Qed.

End ReadLoop.

Lemma attempts_retry_rounds w deviceID k (t : list (event F)) :
  attempts (retry_rounds w deviceID k ++ t) = (k + attempts t)%nat.
Proof. induction k as [|k IH]; simpl; [done|]. by rewrite IH. Qed.

Lemma sleeps_retry_rounds w deviceID k (t : list (event F)) :
  sleeps (retry_rounds w deviceID k ++ t) = replicate k 1%nat ++ sleeps t.
Proof. induction k as [|k IH]; simpl; [done|]. by rewrite IH. Qed.

End Runs.


(** ** Rounding *)



(** ** Facts about the program *)

Section Program.

Context {F : Type} `{Float64 F}.
Variable w : World.

Lemma ReadDir_calls_app (t1 t2 : list (event F)) :
  ReadDir_calls (t1 ++ t2) = (ReadDir_calls t1 + ReadDir_calls t2)%nat.
Proof. unfold ReadDir_calls. by rewrite List.filter_app, length_app. Qed.

Lemma ReadDir_calls_found (l : list string) :
  ReadDir_calls (map (found (F:=F)) l) = 0%nat.
Proof. by induction l. Qed.

Lemma with_sensors_id (s : state F) : with_sensors (sensors s) s = s.
Proof. by destruct s. Qed.

Lemma with_onewireDeviceList_id (s : state F) :
  with_onewireDeviceList (onewireDeviceList s) s = s.
Proof. by destruct s. Qed.

Lemma runs_eq {A} (m : M F A) s a s1 t1 s2 t2 :
  runs m s a s1 t1 -> s1 = s2 -> t1 = t2 -> runs m s a s2 t2.
Proof. by intros ? <- <-. Qed.

(** *** [createOnewireDeviceList] *)

Lemma add_devices_runs (devices : list string) : forall s : state F,
  runs (add_devices devices) s tt
    (with_onewireDeviceList (onewireDeviceList s ++ List.filter keep devices) s)
    (map found (List.filter keep devices)).
Proof.
  induction devices as [|device devices IH]; intros s.
  - simpl. rewrite app_nil_r, with_onewireDeviceList_id. apply runs_ret.
  - cbn [add_devices List.filter].
    change (negb (Contains device "w1_bus_master1")) with (keep device).
    destruct (keep device).
    + change (map found (device :: List.filter keep devices))
        with ([found device] ++ map (found (F:=F)) (List.filter keep devices)).
      eapply runs_bind; [|].
      * change [found device] with ([] ++ ([] ++ [found (F:=F) device])).
        eapply runs_bind; [apply runs_gets|].
        eapply runs_bind; [apply runs_modify|].
        apply runs_emit.
      * specialize (IH (with_onewireDeviceList (onewireDeviceList s ++ [device]) s)).
        simpl in IH. by rewrite <- app_assoc in IH.
    + change (map found (List.filter keep devices))
        with ([] ++ map (found (F:=F)) (List.filter keep devices)).
      eapply runs_bind; [apply runs_ret|]. apply IH.
Qed.

Lemma createOnewireDeviceList_runs (names : list string) (s : state F) :
  dir_entries w = Ok names ->
  runs (createOnewireDeviceList w) s None (discovered names s)
    (ReadDir onewireDevicePath :: map found (List.filter keep names)).
Proof.
  intros Hdir. unfold createOnewireDeviceList, ioutil_ReadDir.
  eapply runs_eq.
  - eapply runs_bind.
    { eapply runs_bind; [apply runs_emit|apply runs_ret]. }
    rewrite Hdir.
    eapply runs_bind; [apply add_devices_runs|].
    eapply runs_bind; [apply runs_gets|].
    eapply runs_bind; [apply runs_modify|].
    apply runs_ret.
  - done.
  - simpl. by rewrite app_nil_r.
Qed.

Lemma createOnewireDeviceList_exits (err : error) (s : state F) :
  dir_entries w = Err err ->
  createOnewireDeviceList w s
  = (Exit 1, s, [ReadDir onewireDevicePath;
                 Logf FatalLevel "Can't read device directory %v" [LError err]]).
Proof.
  intros Hdir. unfold createOnewireDeviceList, ioutil_ReadDir.
  unfold mbind, M_bind, bind. simpl. by rewrite Hdir.
Qed.

(** *** One device of a pass *)

Lemma observe_device_runs (index : nat) (deviceID : string) (s : state F) :
  (index < length (sensors s))%nat ->
  exists v e r t0 t,
    runs (readOnewireDevicePayload w deviceID) s (v, e) (with_nreads r s) t0 /\
    runs (observe_device w index deviceID) s tt
      (published w index deviceID v (with_nreads r s)) t /\
    (is_Some e -> v = f_0 /\
       Log ErrorLevel [("deviceID", LString deviceID)] "Error reading from device" ∈ t) /\
    ReadDir_calls t = 0%nat.
Proof.
  intros Hindex.
  destruct (read_loop_returns w deviceID 5 s) as (v & e & t0 & Hr & _ & Hv & Hrd).
  fold (readOnewireDevicePayload w deviceID) in Hr.
  set (r := nreads (state_of (readOnewireDevicePayload w deviceID s))) in *.
  assert (Hrest : forall (pre : list (event F)) (logged : M F unit),
    runs logged (with_nreads r s) tt (with_nreads r s) pre ->
    exists t', runs (logged;;
                 let fahrenheit := fahrenheit v in
                 (if enableFahrenheit w
                  then log InfoLevel [("deviceID", LString deviceID); ("value", LFloat v);
                                      ("fahrenheit", LFloat fahrenheit);
                                      ("hostname", LString (hostname w))]
                         "Value read from device"
                  else log InfoLevel [("deviceID", LString deviceID); ("value", LFloat v);
                                      ("hostname", LString (hostname w))]
                         "Value read from device");;
                 set_TemperatureC (deviceID, hostname w) v;;
                 (if enableFahrenheit w
                  then set_TemperatureF (deviceID, hostname w) fahrenheit
                  else ret tt);;
                 l ← gets sensors;
                 (if decide (index < length l)%nat
                  then set_sensors (<[index := {| SensorID := deviceID;
                                                  SensorType := "temperature";
                                                  SensorValue := v |}]> l)
                  else panic "index out of range"))
                (with_nreads r s) tt (published w index deviceID v (with_nreads r s))
                (pre ++ t') /\ ReadDir_calls t' = 0%nat).
  { intros pre logged Hlogged. unfold published.
    destruct (enableFahrenheit w); eexists; (split; [eapply runs_bind; [exact Hlogged|]|]).
    - unfold runs, mbind, M_bind, bind. simpl.
      rewrite decide_True by done. reflexivity.
    - done.
    - unfold runs, mbind, M_bind, bind. simpl.
      rewrite decide_True by done. reflexivity.
    - done. }
  destruct e as [err|].
  - destruct (Hrest [Log ErrorLevel [("deviceID", LString deviceID)] "Error reading from device"]
                (log ErrorLevel [("deviceID", LString deviceID)] "Error reading from device"))
      as (t' & Ht' & Hrd'); [apply runs_emit|].
    exists v, (Some err), r, t0, (t0 ++ [Log ErrorLevel [("deviceID", LString deviceID)]
                                      "Error reading from device"] ++ t').
    split_and!; [done| |intros _; split; [by apply Hv|]|].
    + unfold observe_device. eapply runs_bind; [exact Hr|exact Ht'].
    + apply elem_of_app. right. apply elem_of_app. left. by apply list_elem_of_singleton.
    + rewrite !ReadDir_calls_app, Hrd, Hrd'. done.
  - destruct (Hrest [] (ret tt)) as (t' & Ht' & Hrd'); [apply runs_ret|].
    exists v, None, r, t0, (t0 ++ [] ++ t').
    split_and!; [done| |by intros [??]|].
    + unfold observe_device. eapply runs_bind; [exact Hr|exact Ht'].
    + rewrite !ReadDir_calls_app, Hrd, Hrd'. done.
Qed.

Lemma published_sensors index deviceID v (s : state F) :
  sensors (published w index deviceID v s)
  = <[index := {| SensorID := deviceID; SensorType := "temperature"; SensorValue := v |}]>
      (sensors s).
Proof. unfold published. by destruct (enableFahrenheit w). Qed.

Lemma published_onewireDeviceList index deviceID v (s : state F) :
  onewireDeviceList (published w index deviceID v s) = onewireDeviceList s.
Proof. unfold published. by destruct (enableFahrenheit w). Qed.

(** *** The devices of a pass *)

Lemma observe_devices_runs (devices : list string) : forall (index : nat) (s : state F),
  (index + length devices <= length (sensors s))%nat ->
  exists s' t,
    runs (observe_devices w devices index) s tt s' t /\
    onewireDeviceList s' = onewireDeviceList s /\
    length (sensors s') = length (sensors s) /\
    (forall j, (j < index \/ index + length devices <= j)%nat ->
       sensors s' !! j = sensors s !! j) /\
    (forall i d, devices !! i = Some d ->
       exists v, sensors s' !! (index + i)%nat
                 = Some {| SensorID := d; SensorType := "temperature";
                           SensorValue := v |}) /\
    ReadDir_calls t = 0%nat.
Proof.
  induction devices as [|deviceID devices IH]; intros index s Hlen.
  - exists s, []. split_and!; [apply runs_ret|done..].
  - simpl in Hlen.
    destruct (observe_device_runs index deviceID s) as (v & e & r & t0 & t1 & _ & Hone & _ & Hrd1);
      [lia|].
    set (s1 := published w index deviceID v (with_nreads r s)) in *.
    assert (Hs1 : sensors s1 = <[index := {| SensorID := deviceID;
                                              SensorType := "temperature";
                                              SensorValue := v |}]> (sensors s)).
    { unfold s1. by rewrite published_sensors. }
    assert (Hl1 : onewireDeviceList s1 = onewireDeviceList s).
    { unfold s1. by rewrite published_onewireDeviceList. }
    destruct (IH (S index) s1) as (s' & t2 & Hrest & Hl & Hlen' & Hframe & Hslots & Hrd2).
    { rewrite Hs1, length_insert. lia. }
    exists s', (t1 ++ t2). split_and!.
    + cbn [observe_devices]. eapply runs_bind; [exact Hone|exact Hrest].
    + by rewrite Hl.
    + by rewrite Hlen', Hs1, length_insert.
    + intros j Hj. simpl in Hj. rewrite Hframe by lia.
      rewrite Hs1. apply list_lookup_insert_ne. lia.
    + intros [|i] d Hd.
      * injection Hd as <-. rewrite Nat.add_0_r, Hframe by lia.
        exists v. rewrite Hs1. apply list_lookup_insert_eq. lia.
      * replace (index + S i)%nat with (S index + i)%nat by lia. by apply Hslots.
    + by rewrite ReadDir_calls_app, Hrd1, Hrd2.
Qed.

Lemma observe_devices_app (l1 : list string) : forall l2 index (s s1 s2 : state F) t1 t2,
  runs (observe_devices w l1 index) s tt s1 t1 ->
  runs (observe_devices w l2 (index + length l1)) s1 tt s2 t2 ->
  runs (observe_devices w (l1 ++ l2) index) s tt s2 (t1 ++ t2).
Proof.
  induction l1 as [|d l1 IH]; intros l2 index s s1 s2 t1 t2 H1 H2.
  - injection H1 as <- <-. by rewrite Nat.add_0_r in H2.
  - cbn [observe_devices] in H1.
    apply runs_bind_inv in H1 as ([] & sm & ta & tb & Hd & Hl1 & ->).
    rewrite <- app_assoc. cbn [app observe_devices].
    eapply runs_bind; [exact Hd|].
    eapply IH; [exact Hl1|].
    by replace (S index + length l1)%nat with (index + length (d :: l1))%nat by (simpl; lia).
Qed.

Lemma reslice_runs (s : state F) : ready s -> runs reslice s tt s [].
Proof.
  intros Hready. unfold runs, reslice, mbind, M_bind, bind. simpl.
  rewrite decide_True by (unfold ready in Hready; lia).
  unfold set_sensors, modify. rewrite <- Hready, firstn_all.
  by rewrite with_sensors_id.
Qed.

(** A pass, and the prefix of it that has processed [k] devices: the
    prefix has written the first [k] slots of the pass and left the
    others as they were. *)
Lemma partial_and_full (s : state F) (k : nat) :
  ready s -> (k <= length (onewireDeviceList s))%nat ->
  exists sk tk s' t',
    runs (partial_pass w k) s tt sk tk /\
    runs (poll_pass w) s tt s' t' /\
    onewireDeviceList sk = onewireDeviceList s /\
    onewireDeviceList s' = onewireDeviceList s /\
    ready sk /\ ready s' /\ tagged s' /\ (tagged s -> tagged sk) /\
    sensors sk = take k (sensors s') ++ drop k (sensors s) /\
    ReadDir_calls tk = 0%nat /\ ReadDir_calls t' = 0%nat.
Proof.
  intros Hready Hk. unfold ready in Hready.
  set (l := onewireDeviceList s) in *.
  assert (Hlk : length (take k l) = k) by (rewrite length_take; lia).
  destruct (observe_devices_runs (take k l) 0 s)
    as (sk & tk & Hfirst & Hlsk & Hlensk & Hframe1 & Hslots1 & Hrd1); [simpl; lia|].
  destruct (observe_devices_runs (drop k l) k sk)
    as (s' & t2 & Hsecond & Hls' & Hlens' & Hframe2 & Hslots2 & Hrd2).
  { rewrite length_drop, Hlensk. lia. }
  assert (Hall : runs (observe_devices w l 0) s tt s' (tk ++ t2)).
  { rewrite <- (take_drop k l). eapply observe_devices_app; [exact Hfirst|].
    by rewrite Nat.add_0_l, Hlk. }
  exists sk, tk, s', (tk ++ t2 ++ [Sleep 60]).
  rewrite Hlk in *. rewrite length_drop in *.
  split_and!.
  - unfold partial_pass. eapply runs_eq.
    + eapply runs_bind; [by apply reslice_runs|].
      eapply runs_bind; [apply runs_gets|]. exact Hfirst.
    + done.
    + done.
  - unfold poll_pass. eapply runs_eq.
    + eapply runs_bind; [by apply reslice_runs|].
      eapply runs_bind; [apply runs_gets|].
      eapply runs_bind; [exact Hall|]. apply runs_emit.
    + done.
    + simpl. by rewrite <- app_assoc.
  - done.
  - by rewrite Hls'.
  - unfold ready. by rewrite Hlensk, Hlsk.
  - unfold ready. by rewrite Hlens', Hlensk, Hls', Hlsk.
  - intros i d Hd. rewrite Hls', Hlsk in Hd. fold l in Hd.
    destruct (decide (i < k)%nat) as [Hi|Hi].
    + destruct (Hslots1 i d) as [v Hv]; [by rewrite lookup_take_lt|].
      exists v. rewrite Hframe2 by lia. exact Hv.
    + destruct (Hslots2 (i - k)%nat d) as [v Hv].
      { rewrite lookup_drop. rewrite <- Hd. f_equal. lia. }
      exists v. rewrite <- Hv. f_equal. lia.
  - intros Htagged i d Hd. rewrite Hlsk in Hd.
    destruct (decide (i < k)%nat) as [Hi|Hi].
    + apply (Hslots1 i d). fold l in Hd. by rewrite lookup_take_lt.
    + rewrite Hframe1 by lia. by apply Htagged.
  - apply list_eq. intros i.
    destruct (decide (i < k)%nat) as [Hi|Hi].
    + rewrite lookup_app_l by (rewrite length_take; lia).
      rewrite lookup_take_lt by done. symmetry. apply Hframe2. lia.
    + rewrite lookup_app_r by (rewrite length_take; lia).
      rewrite length_take, lookup_drop.
      replace (k `min` length (sensors s'))%nat with k by lia.
      replace (k + (i - k))%nat with i by lia. apply Hframe1. lia.
  - done.
  - rewrite !ReadDir_calls_app, Hrd1, Hrd2. done.
Qed.

(** *** The whole program *)

Lemma startup_runs (names : list string) :
  dir_entries w = Ok names ->
  runs (startup w) initial tt (discovered names initial)
    (ReadDir onewireDevicePath :: map found (List.filter keep names)).
Proof.
  intros Hdir. unfold startup. eapply runs_eq.
  - eapply runs_bind; [by apply createOnewireDeviceList_runs|]. apply runs_ret.
  - done.
  - by rewrite app_nil_r.
Qed.

Lemma discovered_initial (names : list string) :
  ready (discovered names initial) /\
  onewireDeviceList (discovered names initial) = List.filter keep names.
Proof. unfold ready. simpl. by rewrite length_replicate. Qed.

Lemma poll_passes_runs (n : nat) : forall s : state F,
  ready s ->
  exists s' t,
    runs (poll_passes w n) s tt s' t /\
    onewireDeviceList s' = onewireDeviceList s /\
    ready s' /\ ((1 <= n)%nat -> tagged s') /\ ReadDir_calls t = 0%nat.
Proof.
  induction n as [|n IH]; intros s Hready.
  - exists s, []. split_and!; [apply runs_ret|done|done|lia|done].
  - destruct (IH s Hready) as (sn & tn & Hn & Hln & Hreadyn & _ & Hrdn).
    destruct (partial_and_full sn 0 Hreadyn)
      as (_ & _ & s' & t' & _ & Hpass & _ & Hl' & _ & Hready' & Htagged & _ & _ & _ & Hrd');
      [lia|].
    exists s', (tn ++ t'). split_and!.
    + cbn [poll_passes]. eapply runs_bind; [exact Hn|exact Hpass].
    + by rewrite Hl'.
    + done.
    + done.
    + by rewrite ReadDir_calls_app, Hrdn, Hrd'.
Qed.

(** Past the end of the list, a prefix of a pass is the whole list. *)
Lemma partial_pass_min (k : nat) (s : state F) :
  partial_pass w k s = partial_pass w (k `min` length (onewireDeviceList s)) s.
Proof.
  unfold partial_pass, reslice, mbind, M_bind, bind. simpl.
  assert (Htake : take k (onewireDeviceList s)
                  = take (k `min` length (onewireDeviceList s)) (onewireDeviceList s)).
  { destruct (decide (k <= length (onewireDeviceList s))%nat).
    - by rewrite Nat.min_l by done.
    - rewrite Nat.min_r by lia. by rewrite !take_ge by lia. }
  destruct (decide (length (onewireDeviceList s) <= length (sensors s))%nat); [|done].
  simpl. by rewrite <- Htake.
Qed.

(** The program after [n] passes, and after [k] more devices. *)
Lemma observe_runs (names : list string) (n k : nat) :
  dir_entries w = Ok names ->
  exists sn tp sk tk s' t',
    runs (observeOnewireTemperature w n) initial tt sn
      ((ReadDir onewireDevicePath :: map found (List.filter keep names)) ++ tp) /\
    runs (observe_until w n k) initial tt sk tk /\
    runs (observeOnewireTemperature w (S n)) initial tt s' t' /\
    onewireDeviceList sn = List.filter keep names /\
    onewireDeviceList sk = List.filter keep names /\
    ready sn /\ ready sk /\
    ((1 <= n)%nat -> tagged sn /\ tagged sk) /\
    sensors sk = take k (sensors s') ++ drop k (sensors sn) /\
    ReadDir_calls tp = 0%nat.
Proof.
  intros Hdir.
  pose proof (startup_runs names Hdir) as Hstart.
  destruct (discovered_initial names) as [Hready0 Hl0].
  destruct (poll_passes_runs n _ Hready0) as (sn & tn & Hn & Hln & Hreadyn & Htaggedn & Hrdn).
  rewrite Hl0 in Hln.
  set (k' := (k `min` length (onewireDeviceList sn))%nat).
  destruct (partial_and_full sn k' Hreadyn)
    as (sk & tk & s' & t' & Hpart & Hpass & Hlk & Hl' & Hreadyk & Hready' & Htagged' &
        Htaggedk & Hsensors & Hrdk & Hrd'); [lia|].
  unfold runs, k' in Hpart. rewrite <- partial_pass_min in Hpart.
  eexists sn, _, sk, _, s', _. split_and!.
  - unfold observeOnewireTemperature. eapply runs_bind; [exact Hstart|exact Hn].
  - unfold observe_until, observeOnewireTemperature.
    eapply runs_bind; [|exact Hpart].
    eapply runs_bind; [exact Hstart|exact Hn].
  - unfold observeOnewireTemperature. eapply runs_bind; [exact Hstart|].
    cbn [poll_passes]. eapply runs_bind; [exact Hn|exact Hpass].
  - done.
  - by rewrite Hlk.
  - done.
  - done.
  - intros Hn1. split; [by apply Htaggedn|]. apply Htaggedk. by apply Htaggedn.
  - rewrite Hsensors. unfold k'.
    destruct (decide (k <= length (onewireDeviceList sn))%nat).
    + by rewrite Nat.min_l by done.
    + rewrite Nat.min_r by lia.
      unfold ready in Hreadyn, Hready'. rewrite Hl' in Hready'.
      rewrite !take_ge, !drop_ge by lia. done.
  - done.
Qed.

End Program.

(** ** Facts about [strings.Contains] *)

Lemma Contains_spec (s substr : string) :
  Contains s substr = true <-> exists pre post, s = pre +:+ substr +:+ post.
Proof.
  split.
  - induction s as [|a s IH]; cbn [Contains].
    + destruct (String.prefix substr "") eqn:Hp; [|done].
      intros _. apply prefix_inv_s in Hp as [post Hp]. by exists "", post.
    + destruct (String.prefix substr (String a s)) eqn:Hp.
      * intros _. apply prefix_inv_s in Hp as [post Hp]. by exists "", post.
      * intros (pre & post & ->)%IH. by exists (String a pre), post.
  - intros (pre & post & ->). induction pre as [|a pre IH].
    + rewrite app_empty_l. destruct (substr +:+ post) eqn:Heq; cbn [Contains].
      * by rewrite <- Heq, prefix_app_s.
      * by rewrite <- Heq, prefix_app_s.
    + rewrite app_cons. cbn [Contains]. rewrite IH. by destruct (String.prefix _ _).
Qed.

(** ** The claims *)

(** C1, as the code has it: a failed read is logged, and the pass goes on
    with the value 0 that came with the error: the Celsius gauge of the
    device is set to 0, the Fahrenheit gauge (when enabled) to the
    conversion of 0, and the slot of the device is overwritten with a
    reading of 0. *)
Theorem C1_failed_read_publishes_zero {F} `{Float64 F} (w : World) (s : state F)
    (index : nat) (deviceID : string) (value : F) (err : error) :
  outcome_of (readOnewireDevicePayload w deviceID s) = Return (value, Some err) ->
  (index < length (sensors s))%nat ->
  let run := observe_device w index deviceID s in
  outcome_of run = Return tt /\
  Log ErrorLevel [("deviceID", LString deviceID)] "Error reading from device" ∈ events_of run /\
  onewireTemperatureC (state_of run) !! (deviceID, hostname w) = Some f_0 /\
  (enableFahrenheit w = true ->
   onewireTemperatureF (state_of run) !! (deviceID, hostname w) = Some (fahrenheit f_0)) /\
  jsonPathHandler (state_of run) !! index
  = Some {| SensorID := deviceID; SensorType := "temperature"; SensorValue := f_0 |}.
Proof.
  intros Hfail Hindex run.
  destruct (observe_device_runs w index deviceID s Hindex)
    as (v & e & r & t0 & t & Hread & Hrun & Herr & _).
  apply runs_outcome in Hread as (Ho & _). rewrite Ho in Hfail. injection Hfail as -> ->.
  destruct Herr as [-> Hlog]; [done|].
  apply runs_outcome in Hrun as (Horun & Hs & Ht). subst run. rewrite Horun, Hs, Ht.
  split_and!; [done|done| | |].
  - unfold published. destruct (enableFahrenheit w); simpl; by rewrite lookup_insert_eq.
  - intros Hf. unfold published. rewrite Hf. simpl. by rewrite lookup_insert_eq.
  - unfold jsonPathHandler. rewrite published_sensors.
    by apply list_lookup_insert_eq.
Qed.

Lemma C1_failed_read_publishes_zero_witness :
  let before := state_of (observeOnewireTemperature (F:=Q) unreadable_in_second_pass 1 initial) in
  let after := state_of (observe_device unreadable_in_second_pass 0 "28-000001" before) in
  (onewireTemperatureC before !! ("28-000001", "pi") = Some (21500 # 1000)%Q /\
   (SensorValue <$> jsonPathHandler before) !! 0%nat = Some (21500 # 1000)%Q) /\
  (onewireTemperatureC after !! ("28-000001", "pi") = Some 0%Q /\
   onewireTemperatureF after !! ("28-000001", "pi") = Some (fahrenheit 0%Q) /\
   (SensorValue <$> jsonPathHandler after) !! 0%nat = Some 0%Q).
Proof.
  cbv zeta. split.
  - split; vm_compute; reflexivity.
  - destruct (C1_failed_read_publishes_zero (F:=Q) unreadable_in_second_pass
                (state_of (observeOnewireTemperature (F:=Q) unreadable_in_second_pass 1 initial))
                0 "28-000001" 0%Q
                (PathError "open" "/sys/bus/w1/devices/28-000001/w1_slave"))
      as (_ & _ & HC & HF & Hslot).
    + vm_compute. reflexivity.
    + vm_compute. lia.
    + split; [exact HC|]. split; [exact (HF eq_refl)|].
      rewrite list_lookup_fmap, Hslot. reflexivity.
Defined.




(** C3: the read makes at most five attempts; when the first [N] reads
    succeed and the pattern first matches on attempt [N], the reading is
    returned after exactly [N-1] rounds of read, warning and one-second
    pause; when five reads succeed and none matches, the error "Failed to
    read device" is returned, every attempt having been followed by a
    one-second pause. [payload i] is the text the [i]-th attempt reads. *)
Theorem C3_read_retry_policy {F} `{Float64 F} (w : World) (s : state F)
    (deviceID : string) (payload : nat -> string) :
  let run := readOnewireDevicePayload w deviceID s in
  let read i := file_contents w (nreads s + i - 1) (devicePayloadFile_of deviceID) in
  (attempts (events_of run) <= 5)%nat /\
  (forall N m, (1 <= N <= 5)%nat ->
     (forall i, (1 <= i <= N)%nat -> read i = Ok (payload i)) ->
     (forall i, (1 <= i < N)%nat -> FindStringSubmatch re (payload i) = None) ->
     FindStringSubmatch re (payload N) = Some m ->
     outcome_of run = Return (fdiv (ParseFloat (default "" (m !! 1%nat))).1 f_1000, None) /\
     events_of run
       = retry_rounds w deviceID (N - 1) ++ [ReadFile (devicePayloadFile_of deviceID)] /\
     attempts (events_of run) = N /\
     sleeps (events_of run) = replicate (N - 1) 1%nat) /\
  ((forall i, (1 <= i <= 5)%nat ->
      read i = Ok (payload i) /\ FindStringSubmatch re (payload i) = None) ->
   outcome_of run = Return (f_0, Some (errorString "Failed to read device")) /\
   events_of run = retry_rounds w deviceID 5 /\
   attempts (events_of run) = 5%nat /\
   sleeps (events_of run) = replicate 5 1%nat).
Proof.
  intros run read. split_and!.
  - destruct (read_loop_returns w deviceID 5 s) as (v & e & t & Hr & Hatt & _).
    apply runs_outcome in Hr as (_ & _ & Ht). subst run.
    unfold readOnewireDevicePayload. by rewrite Ht.
  - intros N m HN Hread Hnone Hm.
    assert (Hr : runs (read_loop w deviceID (devicePayloadFile_of deviceID) ((N - 1) + S (5 - N))) s
              (fdiv (ParseFloat (default "" (m !! 1%nat))).1 f_1000, None)
              (with_nreads (S (nreads s + (N - 1))) s)
              (retry_rounds w deviceID (N - 1) ++ [ReadFile (devicePayloadFile_of deviceID)])).
    { apply read_loop_retries.
      - intros i Hi. exists (payload (S i)). split.
        + rewrite <- (Hread (S i)) by lia. unfold read. f_equal. lia.
        + apply Hnone. lia.
      - apply (read_loop_match w deviceID _ (with_nreads (nreads s + (N - 1)) s) (payload N) m);
          [|done].
        simpl. rewrite <- (Hread N) by lia. unfold read. f_equal. lia. }
    replace (N - 1 + S (5 - N))%nat with 5%nat in Hr by lia.
    apply runs_outcome in Hr as (Ho & _ & Ht). subst run.
    unfold readOnewireDevicePayload. rewrite Ho, Ht. split_and!; [done..| |].
    + rewrite attempts_retry_rounds. simpl. lia.
    + rewrite sleeps_retry_rounds. simpl. by rewrite app_nil_r.
  - intros Hnone.
    assert (Hr : runs (read_loop w deviceID (devicePayloadFile_of deviceID) (5 + 0)) s
              (f_0, Some (errorString "Failed to read device"))
              (with_nreads (nreads s + 5) s)
              (retry_rounds w deviceID 5 ++ [])).
    { apply read_loop_retries.
      - intros i Hi. exists (payload (S i)). destruct (Hnone (S i)) as [Hread Hm]; [lia|].
        split; [|done]. rewrite <- Hread. unfold read. f_equal. lia.
      - apply read_loop_exhausted. }
    rewrite app_nil_r in Hr. change (5 + 0)%nat with 5%nat in Hr.
    apply runs_outcome in Hr as (Ho & _ & Ht). subst run.
    unfold readOnewireDevicePayload. rewrite Ho, Ht. done.
Qed.

Lemma C3_read_retry_policy_witness :
  let w := example_world [Ok "NO"; Ok "NO"; Ok (w1_slave "23125")] false in
  let run := readOnewireDevicePayload (F:=float) w "28-000001" initial in
  outcome_of run = Return (23.125%float, None) /\
  attempts (events_of run) = 3%nat /\
  sleeps (events_of run) = [1; 1]%nat.
Proof.
  cbv zeta.
  destruct (C3_read_retry_policy (F:=float)
              (example_world [Ok "NO"; Ok "NO"; Ok (w1_slave "23125")] false)
              initial "28-000001"
              (fun i => match i with 1 | 2 => "NO" | _ => w1_slave "23125" end%nat))
    as (_ & Hmatch & _).
  edestruct (Hmatch 3%nat) as (Ho & _ & Ha & Hs).
  - lia.
  - intros i Hi. destruct i as [|[|[|[|i]]]]; try lia; reflexivity.
  - intros i Hi. destruct i as [|[|[|i]]]; try lia; reflexivity.
  - vm_compute. reflexivity.
  - rewrite Ho, Ha, Hs. split_and!; [|done|done].
    vm_compute. reflexivity.
Defined.



(** C5: discovery keeps, in the order of the listing, the names that do
    not contain "w1_bus_master1" (as a substring, anywhere), and makes
    [sensors] a slice of that many zero values; a run of the program lists
    the directory exactly once, before anything else. *)
Theorem C5_device_discovery {F} `{Float64 F} (w : World) (names : list string) :
  dir_entries w = Ok names ->
  let run := createOnewireDeviceList w initial in
  outcome_of run = Return None /\
  onewireDeviceList (state_of run)
  = List.filter (fun name => negb (Contains name "w1_bus_master1")) names /\
  sensors (state_of run) = replicate (length (onewireDeviceList (state_of run))) zero_sensor /\
  (forall name, Contains name "w1_bus_master1" = true <->
                exists pre post, name = pre +:+ "w1_bus_master1" +:+ post) /\
  (forall n,
     ReadDir_calls (events_of (observeOnewireTemperature w n initial)) = 1%nat /\
     head (events_of (observeOnewireTemperature w n initial)) = Some (ReadDir onewireDevicePath)).
Proof.
  intros Hdir run.
  pose proof (createOnewireDeviceList_runs w names initial Hdir) as Hc.
  apply runs_outcome in Hc as (Ho & Hs & _). subst run. rewrite Ho, Hs.
  split_and!; [done|done|done|intros; apply Contains_spec|].
  intros n.
  destruct (observe_runs w names n 0 Hdir)
    as (sn & tp & ? & ? & ? & ? & Hn & _ & _ & _ & _ & _ & _ & _ & _ & Hrd).
  apply runs_outcome in Hn as (_ & _ & Ht). rewrite Ht. split; [|done].
  rewrite ReadDir_calls_app, Hrd.
  change (ReadDir onewireDevicePath :: map found (List.filter keep names))
    with ([ReadDir onewireDevicePath] ++ map (found (F:=F)) (List.filter keep names)).
  by rewrite ReadDir_calls_app, ReadDir_calls_found.
Qed.

Lemma C5_device_discovery_witness :
  onewireDeviceList (state_of (createOnewireDeviceList (F:=Q) two_passes initial))
  = ["28-000001"; "28-000002"] /\
  sensors (state_of (createOnewireDeviceList (F:=Q) two_passes initial))
  = [zero_sensor; zero_sensor].
Proof.
  destruct (C5_device_discovery (F:=Q) two_passes
              ["28-000001"; "28-000002"; "w1_bus_master1"] eq_refl)
    as (_ & Hlist & Hsensors & _).
  split.
  - rewrite Hlist. reflexivity.
  - rewrite Hsensors, Hlist. reflexivity.
Defined.


(** C7: when the [K]-th read of the file fails with an I/O error (earlier
    attempts having read a text without a match), the read returns that
    error right after the failed attempt: the trace ends with the failed
    [ReadFile] and its error entry, with no pause and no further attempt
    after it; a failure of the first read makes one attempt and no pause. *)
Theorem C7_io_error_returns_immediately {F} `{Float64 F} (w : World) (s : state F)
    (deviceID : string) (K : nat) (err : error) :
  (1 <= K <= 5)%nat ->
  (forall i, (1 <= i < K)%nat -> exists buffer,
     file_contents w (nreads s + i - 1) (devicePayloadFile_of deviceID) = Ok buffer /\
     FindStringSubmatch re buffer = None) ->
  file_contents w (nreads s + K - 1) (devicePayloadFile_of deviceID) = Err err ->
  let run := readOnewireDevicePayload w deviceID s in
  outcome_of run = Return (f_0, Some err) /\
  events_of run
    = retry_rounds w deviceID (K - 1) ++
      [ReadFile (devicePayloadFile_of deviceID);
       Log ErrorLevel [("devicePayloadFile", LString (devicePayloadFile_of deviceID))]
         "Error reading Device"] /\
  attempts (events_of run) = K /\
  sleeps (events_of run) = replicate (K - 1) 1%nat /\
  (K = 1%nat -> attempts (events_of run) = 1%nat /\ sleeps (events_of run) = []).
Proof.
  intros HK Hnone Herr run.
  assert (Hr : runs (read_loop w deviceID (devicePayloadFile_of deviceID) ((K - 1) + S (5 - K))) s
            (f_0, Some err)
            (with_nreads (S (nreads s + (K - 1))) s)
            (retry_rounds w deviceID (K - 1) ++
             [ReadFile (devicePayloadFile_of deviceID);
              Log ErrorLevel [("devicePayloadFile", LString (devicePayloadFile_of deviceID))]
                "Error reading Device"])).
  { apply read_loop_retries.
    - intros i Hi. destruct (Hnone (S i)) as (buffer & Hb & Hm); [lia|].
      exists buffer. split; [|done]. rewrite <- Hb. f_equal. lia.
    - apply (read_loop_io_error w deviceID _ (with_nreads (nreads s + (K - 1)) s) err).
      simpl. rewrite <- Herr. f_equal. lia. }
  replace (K - 1 + S (5 - K))%nat with 5%nat in Hr by lia.
  apply runs_outcome in Hr as (Ho & _ & Ht). subst run.
  unfold readOnewireDevicePayload. rewrite Ho, Ht.
  rewrite attempts_retry_rounds, sleeps_retry_rounds. simpl.
  rewrite app_nil_r. split_and!; [done|done|lia|done|].
  intros ->. done.
Qed.

Lemma C7_io_error_returns_immediately_witness :
  let w := example_world [Err (PathError "open" "/sys/bus/w1/devices/28-000002/w1_slave")] false in
  let run := readOnewireDevicePayload (F:=float) w "28-000002" initial in
  outcome_of run
  = Return (0%float, Some (PathError "open" "/sys/bus/w1/devices/28-000002/w1_slave")) /\
  events_of run
  = [ReadFile "/sys/bus/w1/devices/28-000002/w1_slave";
     Log ErrorLevel [("devicePayloadFile", LString "/sys/bus/w1/devices/28-000002/w1_slave")]
       "Error reading Device"] /\
  attempts (events_of run) = 1%nat /\
  sleeps (events_of run) = [].
Proof.
  cbv zeta.
  destruct (C7_io_error_returns_immediately (F:=float)
              (example_world [Err (PathError "open" "/sys/bus/w1/devices/28-000002/w1_slave")]
                 false)
              initial "28-000002" 1
              (PathError "open" "/sys/bus/w1/devices/28-000002/w1_slave"))
    as (Ho & Ht & _ & _ & Hone).
  - lia.
  - intros i Hi. lia.
  - reflexivity.
  - destruct (Hone eq_refl) as [Ha Hs]. rewrite Ha, Hs, Ho, Ht. done.
Defined.

(** C8: once discovery has run, at every point of the polling (after [n]
    full passes and [k] devices of the next one, for all [n] and [k]) the
    slice served as JSON has the length of the device list; and once the
    first pass is complete, its slot [i] holds the identifier of the [i]-th
    device of the list and the type "temperature". *)
Theorem C8_snapshot_matches_device_list {F} `{Float64 F} (w : World) (names : list string)
    (n k : nat) :
  dir_entries w = Ok names ->
  let run := observe_until w n k initial in
  outcome_of run = Return tt /\
  onewireDeviceList (state_of run) = List.filter keep names /\
  length (jsonPathHandler (state_of run)) = length (onewireDeviceList (state_of run)) /\
  ((1 <= n)%nat ->
   forall i deviceID,
     onewireDeviceList (state_of run) !! i = Some deviceID ->
     exists value,
       jsonPathHandler (state_of run) !! i
       = Some {| SensorID := deviceID; SensorType := "temperature"; SensorValue := value |}).
Proof.
  intros Hdir run.
  destruct (observe_runs w names n k Hdir)
    as (sn & tp & sk & tk & s' & t' & _ & Hk & _ & _ & Hlk & _ & Hready & Htagged & _).
  apply runs_outcome in Hk as (Ho & Hs & _). subst run. rewrite Ho, Hs.
  split_and!; [done|done|exact Hready|].
  intros Hn. by apply Htagged.
Qed.

Lemma C8_snapshot_matches_device_list_witness :
  jsonPathHandler (state_of (observe_until (F:=Q) two_passes 1 1 initial))
  = [ {| SensorID := "28-000001"; SensorType := "temperature"; SensorValue := (3000 # 1000)%Q |};
      {| SensorID := "28-000002"; SensorType := "temperature"; SensorValue := (2000 # 1000)%Q |} ] /\
  length (jsonPathHandler (state_of (observe_until (F:=Q) two_passes 1 1 initial)))
  = length (onewireDeviceList (state_of (observe_until (F:=Q) two_passes 1 1 initial))).
Proof.
  split.
  - vm_compute. reflexivity.
  - apply (C8_snapshot_matches_device_list (F:=Q) two_passes
             ["28-000001"; "28-000002"; "w1_bus_master1"] 1 1 eq_refl).
Defined.

(** C9: [createOnewireDeviceList] returns a nil error whenever it returns;
    when the directory cannot be read, the process exits with status 1
    inside the function, after its own fatal log entry. So the start-up
    never logs "Error getting Onewire device list": what it logs is what
    [createOnewireDeviceList] logs. *)
Theorem C9_device_list_error_is_nil {F} `{Float64 F} (w : World) (s : state F) :
  match outcome_of (createOnewireDeviceList w s) with
  | Return err => err = None /\ exists names, dir_entries w = Ok names
  | Exit code =>
      code = 1 /\
      exists err, dir_entries w = Err err /\
        events_of (createOnewireDeviceList w s)
        = [ReadDir onewireDevicePath;
           Logf FatalLevel "Can't read device directory %v" [LError err]]
  | Panic _ => False
  end /\
  events_of (startup w s) = events_of (createOnewireDeviceList w s) /\
  Log FatalLevel [] "Error getting Onewire device list" ∉ events_of (startup w s).
Proof.
  destruct (dir_entries w) as [names|err] eqn:Hdir.
  - pose proof (createOnewireDeviceList_runs w names s Hdir) as Hc.
    assert (Hs : runs (startup w) s tt (discovered names s)
                   ((ReadDir onewireDevicePath :: map found (List.filter keep names)) ++ [])).
    { unfold startup. eapply runs_bind; [exact Hc|apply runs_ret]. }
    apply runs_outcome in Hc as (Ho & _ & Ht). apply runs_outcome in Hs as (_ & _ & Ht').
    rewrite Ho, Ht, Ht', app_nil_r. split_and!; [done|by exists names|done|].
    intros [Hin|Hin]%elem_of_cons; [done|].
    apply list_elem_of_fmap in Hin as (d & Hd & _). done.
  - pose proof (createOnewireDeviceList_exits w err s Hdir) as Hc.
    assert (Hs : startup w s
                 = (Exit 1, s, [ReadDir onewireDevicePath;
                                Logf FatalLevel "Can't read device directory %v" [LError err]])).
    { unfold startup, mbind, M_bind, bind. by rewrite Hc. }
    rewrite Hs, Hc. simpl. split_and!; [done|by exists err|done|].
    intros Hin. repeat (apply elem_of_cons in Hin as [Hin|Hin]; [done|]).
    by apply elem_of_nil in Hin.
Qed.

(** C10: the pattern matches a text exactly when a field [t=<integer>]
    occurs after an occurrence of [YES] (any characters, newlines
    included, may stand before, between and after them); and the capture is
    the integer of the last such field, with all its digits: when the text
    after the integer neither starts with a digit nor contains a further
    field, the match ends with that integer, which is the capture. *)
Theorem C10_pattern_semantics :
  (forall s, is_Some (FindStringSubmatch re s) <-> has_field_after_yes s) /\
  (forall a b cap c,
     is_integer cap = true -> starts_with_digit c = false -> ~ has_field c ->
     FindStringSubmatch re (a +:+ "YES" +:+ b +:+ "t=" +:+ cap +:+ c)
     = Some [a +:+ "YES" +:+ b +:+ "t=" +:+ cap; cap]).
Proof.
  split.
  - intros s. rewrite FindStringSubmatch_re. split.
    + intros [m Hm]. by eapply match_here_has_field.
    + apply match_here_is_Some.
  - apply pattern_last_field.
Qed.

Lemma C10_pattern_semantics_witness :
  FindStringSubmatch re ("crc=5e YES" +:+ String "010" "t=12 t=-345 t=- t=x")
  = Some ["crc=5e YES" +:+ String "010" "t=12 t=-345"; "-345"].
Proof.
  apply (proj2 C10_pattern_semantics "crc=5e " (String "010" "t=12 ") "-345" " t=- t=x").
  - reflexivity.
  - reflexivity.
  - intros Hfield%contains_field_has_field. vm_compute in Hfield. discriminate Hfield.
Defined.

(** ** Further facts about the effects *)

Section MoreRuns.

Context {F : Type} `{Float64 F}.

Lemma attempts_app (t1 t2 : list (event F)) :
  attempts (t1 ++ t2) = (attempts t1 + attempts t2)%nat.
Proof.
  induction t1 as [|e t1 IH]; [done|]. destruct e; simpl; by rewrite ?IH.
Qed.

Lemma sleeps_app (t1 t2 : list (event F)) : sleeps (t1 ++ t2) = sleeps t1 ++ sleeps t2.
Proof.
  induction t1 as [|e t1 IH]; [done|]. destruct e; simpl; by rewrite ?IH.
Qed.

Lemma slept_app (t1 t2 : list (event F)) : slept (t1 ++ t2) = (slept t1 + slept t2)%nat.
Proof. unfold slept. by rewrite sleeps_app, sum_list_with_app. Qed.

Variables (w : World) (deviceID : string).

(** What the read loop counts: every attempt is one [ReadFile], and every
    pause follows an attempt. *)
Lemma read_loop_counts (n : nat) : forall s : state F,
  let x := read_loop w deviceID (devicePayloadFile_of deviceID) n s in
  nreads (state_of x) = (nreads s + attempts (events_of x))%nat /\
  (attempts (events_of x) <= n)%nat /\
  ((1 <= n)%nat -> (1 <= attempts (events_of x))%nat) /\
  (slept (events_of x) <= attempts (events_of x))%nat.
Proof.
  induction n as [|n IH]; intros s; cbv zeta.
  - pose proof (read_loop_exhausted w deviceID s) as Hr.
    apply runs_outcome in Hr as (_ & -> & ->). simpl. unfold slept. simpl. lia.
  - destruct (file_contents w (nreads s) (devicePayloadFile_of deviceID))
      as [buffer|e] eqn:Hfile.
    + destruct (FindStringSubmatch re buffer) as [m|] eqn:Hm.
      * pose proof (read_loop_match w deviceID n s buffer m Hfile Hm) as Hr.
        apply runs_outcome in Hr as (_ & -> & ->). simpl. unfold slept. simpl. lia.
      * destruct (read_loop_returns w deviceID n (with_nreads (S (nreads s)) s))
          as (v & e & t & Hr & _).
        pose proof (read_loop_mismatch w deviceID n s buffer _ _ _ Hfile Hm Hr) as Hr'.
        specialize (IH (with_nreads (S (nreads s)) s)). cbv zeta in IH.
        apply runs_outcome in Hr as (_ & Hs & Ht).
        apply runs_outcome in Hr' as (_ & -> & ->).
        rewrite Ht in IH. rewrite Hs in IH. simpl in IH.
        destruct IH as (IH1 & IH2 & _ & IH4).
        simpl. unfold slept in *. simpl. lia.
    + pose proof (read_loop_io_error w deviceID n s e Hfile) as Hr.
      apply runs_outcome in Hr as (_ & -> & ->). simpl. unfold slept. simpl. lia.
Qed.

End MoreRuns.

(** ** Further facts about the program *)

Section MoreProgram.

Context {F : Type} `{Float64 F}.
Variable w : World.

(** One device of a pass, with what its trace counts. *)
Lemma observe_device_counts (index : nat) (deviceID : string) (s : state F) :
  (index < length (sensors s))%nat ->
  exists v r t,
    runs (observe_device w index deviceID) s tt
      (published w index deviceID v (with_nreads r s)) t /\
    r = (nreads s + attempts t)%nat /\
    (1 <= attempts t <= 5)%nat /\
    (slept t <= attempts t)%nat.
Proof.
  intros Hindex.
  destruct (read_loop_returns w deviceID 5 s) as (v & e & t0 & Hr & _).
  destruct (read_loop_counts w deviceID 5 s) as (Hn & Hle & Hge & Hsl).
  fold (readOnewireDevicePayload w deviceID) in Hr, Hn, Hle, Hge, Hsl.
  set (r := nreads (state_of (readOnewireDevicePayload w deviceID s))) in *.
  pose proof (proj2 (proj2 (runs_outcome _ _ _ _ _ Hr))) as Ht0.
  rewrite Ht0 in Hn, Hle, Hge, Hsl.
  assert (Hrest : exists logs,
    runs (observe_device w index deviceID) s tt
      (published w index deviceID v (with_nreads r s)) (t0 ++ logs) /\
    attempts logs = 0%nat /\ slept logs = 0%nat).
  { unfold observe_device, published.
    destruct e, (enableFahrenheit w); eexists;
      (split; [eapply runs_bind; [exact Hr|]|]);
      first [ done
            | unfold runs, mbind, M_bind, bind; simpl;
              rewrite decide_True by done; reflexivity ]. }
  destruct Hrest as (logs & Hrun & Ha & Hs).
  exists v, r, (t0 ++ logs). rewrite attempts_app, slept_app, Ha, Hs.
  split_and!; [done|lia|lia|lia|lia].
Qed.

(** The gauges and the slots that [published] leaves alone. *)
Lemma published_frame (index : nat) (deviceID : string) (v : F) (s : state F) :
  onewireDeviceList (published w index deviceID v s) = onewireDeviceList s /\
  nreads (published w index deviceID v s) = nreads s /\
  length (sensors (published w index deviceID v s)) = length (sensors s) /\
  (forall j, j <> index ->
     sensors (published w index deviceID v s) !! j = sensors s !! j) /\
  (forall key, key <> (deviceID, hostname w) ->
     onewireTemperatureC (published w index deviceID v s) !! key
     = onewireTemperatureC s !! key /\
     onewireTemperatureF (published w index deviceID v s) !! key
     = onewireTemperatureF s !! key) /\
  (enableFahrenheit w = false ->
   onewireTemperatureF (published w index deviceID v s) = onewireTemperatureF s).
Proof.
  unfold published. destruct (enableFahrenheit w); simpl; split_and!; try done.
  - by rewrite length_insert.
  - intros j Hj. by apply list_lookup_insert_ne.
  - intros key Hkey. by rewrite !lookup_insert_ne.
  - by rewrite length_insert.
  - intros j Hj. by apply list_lookup_insert_ne.
  - intros key Hkey. by rewrite !lookup_insert_ne.
Qed.

Lemma published_values (index : nat) (deviceID : string) (v : F) (s : state F) :
  (index < length (sensors s))%nat ->
  sensors (published w index deviceID v s) !! index
  = Some {| SensorID := deviceID; SensorType := "temperature"; SensorValue := v |} /\
  onewireTemperatureC (published w index deviceID v s) !! (deviceID, hostname w) = Some v /\
  (enableFahrenheit w = true ->
   onewireTemperatureF (published w index deviceID v s) !! (deviceID, hostname w)
   = Some (fahrenheit v)).
Proof.
  intros Hindex. unfold published. destruct (enableFahrenheit w); simpl; split_and!.
  - by apply list_lookup_insert_eq.
  - by rewrite lookup_insert_eq.
  - intros _. by rewrite lookup_insert_eq.
  - by apply list_lookup_insert_eq.
  - by rewrite lookup_insert_eq.
  - done.
Qed.

(** The label of a device is among the labels of a list exactly when the
    device is in the list. *)
Lemma elem_of_gauge_labels (d : string) (devices : list string) :
  (d, hostname w) ∈ gauge_labels w devices <-> d ∈ devices.
Proof.
  unfold gauge_labels. rewrite list_elem_of_fmap. split.
  - intros (d' & [= ->] & Hd). done.
  - intros Hd. by exists d.
Qed.

(** The devices of a pass: what they write and what they leave. *)
Lemma observe_devices_more (devices : list string) : forall (index : nat) (s : state F),
  (index + length devices <= length (sensors s))%nat ->
  exists s' t,
    runs (observe_devices w devices index) s tt s' t /\
    onewireDeviceList s' = onewireDeviceList s /\
    length (sensors s') = length (sensors s) /\
    (forall j, (j < index \/ index + length devices <= j)%nat ->
       sensors s' !! j = sensors s !! j) /\
    (enableFahrenheit w = false -> onewireTemperatureF s' = onewireTemperatureF s) /\
    (forall key, key ∉ gauge_labels w devices ->
       onewireTemperatureC s' !! key = onewireTemperatureC s !! key /\
       onewireTemperatureF s' !! key = onewireTemperatureF s !! key) /\
    (forall d, d ∈ devices -> is_Some (onewireTemperatureC s' !! (d, hostname w))) /\
    (NoDup devices ->
     forall i d, devices !! i = Some d ->
       exists v,
         sensors s' !! (index + i)%nat
         = Some {| SensorID := d; SensorType := "temperature"; SensorValue := v |} /\
         onewireTemperatureC s' !! (d, hostname w) = Some v /\
         (enableFahrenheit w = true ->
          onewireTemperatureF s' !! (d, hostname w) = Some (fahrenheit v))) /\
    nreads s' = (nreads s + attempts t)%nat /\
    (length devices <= attempts t <= 5 * length devices)%nat /\
    (slept t <= attempts t)%nat.
Proof.
  induction devices as [|d0 devices IH]; intros index s Hlen.
  - exists s, []. split_and!.
    + apply runs_ret.
    + done.
    + done.
    + done.
    + done.
    + done.
    + intros d Hd. by apply elem_of_nil in Hd.
    + intros _ i d Hd. done.
    + simpl. lia.
    + simpl. lia.
    + simpl. lia.
    + done.
  - simpl in Hlen.
    destruct (observe_device_counts index d0 s) as (v0 & r & t1 & Hone & Hr & Ha1 & Hs1); [lia|].
    destruct (published_frame index d0 v0 (with_nreads r s))
      as (Hl1 & Hn1 & Hlen1 & Hslots1 & Hkeys1 & Hoff1).
    destruct (published_values index d0 v0 (with_nreads r s)) as (Hv1 & HC1 & HF1);
      [simpl; lia|].
    change (sensors (with_nreads r s)) with (sensors s) in *.
    change (onewireDeviceList (with_nreads r s)) with (onewireDeviceList s) in *.
    change (onewireTemperatureC (with_nreads r s)) with (onewireTemperatureC s) in *.
    change (onewireTemperatureF (with_nreads r s)) with (onewireTemperatureF s) in *.
    change (nreads (with_nreads r s)) with r in *.
    set (s1 := published w index d0 v0 (with_nreads r s)) in *.
    destruct (IH (S index) s1)
      as (s' & t2 & Hrest & Hl & Hlen' & Hframe & Hoff & Hkeys & Hset & Hnodup & Hn & Ha & Hs).
    { rewrite Hlen1. lia. }
    exists s', (t1 ++ t2). rewrite attempts_app, slept_app.
    split_and!.
    + eapply runs_bind; [exact Hone|exact Hrest].
    + by rewrite Hl.
    + by rewrite Hlen'.
    + intros j Hj. simpl in Hj. rewrite Hframe by lia. apply Hslots1. lia.
    + intros Hf. by rewrite Hoff, Hoff1.
    + intros key Hkey. unfold gauge_labels in Hkey. rewrite fmap_cons in Hkey.
      apply not_elem_of_cons in Hkey as [Hne Hkey].
      destruct (Hkeys key Hkey) as [-> ->]. by apply Hkeys1.
    + intros d [->|Hd]%elem_of_cons.
      * destruct (decide (d0 ∈ devices)) as [Hin|Hnin]; [by apply Hset|].
        destruct (Hkeys (d0, hostname w)) as [-> _].
        { by rewrite elem_of_gauge_labels. }
        by rewrite HC1.
      * by apply Hset.
    + intros [Hnin Hnd]%NoDup_cons [|i] d Hd.
      * injection Hd as <-. exists v0.
        rewrite Nat.add_0_r, Hframe by lia.
        destruct (Hkeys (d0, hostname w)) as [-> ->].
        { by rewrite elem_of_gauge_labels. }
        done.
      * replace (index + S i)%nat with (S index + i)%nat by lia. by apply Hnodup.
    + lia.
    + simpl. lia.
    + simpl. lia.
    + lia.
Qed.

(** A full pass from a state whose slice has the length of the list. *)
Lemma poll_pass_more (s : state F) :
  ready s ->
  exists s' t,
    runs (poll_pass w) s tt s' t /\
    onewireDeviceList s' = onewireDeviceList s /\
    ready s' /\
    (enableFahrenheit w = false -> onewireTemperatureF s' = onewireTemperatureF s) /\
    (forall key, key ∉ gauge_labels w (onewireDeviceList s) ->
       onewireTemperatureC s' !! key = onewireTemperatureC s !! key /\
       onewireTemperatureF s' !! key = onewireTemperatureF s !! key) /\
    (forall d, d ∈ onewireDeviceList s ->
       is_Some (onewireTemperatureC s' !! (d, hostname w))) /\
    (NoDup (onewireDeviceList s) ->
     forall i d, onewireDeviceList s !! i = Some d ->
       exists v,
         sensors s' !! i
         = Some {| SensorID := d; SensorType := "temperature"; SensorValue := v |} /\
         onewireTemperatureC s' !! (d, hostname w) = Some v /\
         (enableFahrenheit w = true ->
          onewireTemperatureF s' !! (d, hostname w) = Some (fahrenheit v))) /\
    nreads s' = (nreads s + attempts t)%nat /\
    (length (onewireDeviceList s) <= attempts t)%nat /\
    (attempts t <= 5 * length (onewireDeviceList s))%nat /\
    (60 <= slept t)%nat /\
    (slept t <= attempts t + 60)%nat.
Proof.
  intros Hready.
  destruct (observe_devices_more (onewireDeviceList s) 0 s)
    as (s' & t & Hrun & Hl & Hlen & _ & Hoff & Hkeys & Hset & Hnodup & Hn & [Ha1 Ha2] & Hs).
  { unfold ready in Hready. lia. }
  exists s', (t ++ [Sleep 60]). rewrite attempts_app, slept_app.
  change (attempts [Sleep 60]) with 0%nat. change (slept [Sleep 60]) with 60%nat.
  split_and!; try done; try lia.
  - unfold poll_pass. eapply runs_eq.
    + eapply runs_bind; [by apply reslice_runs|].
      eapply runs_bind; [apply runs_gets|].
      eapply runs_bind; [exact Hrun|]. apply runs_emit.
    + done.
    + done.
  - unfold ready in *. by rewrite Hlen, Hl.
Qed.

(** The first [k] devices of a pass. *)
Lemma partial_pass_more (s : state F) (k : nat) :
  ready s ->
  exists s' t,
    runs (partial_pass w k) s tt s' t /\
    onewireDeviceList s' = onewireDeviceList s /\
    ready s' /\
    (enableFahrenheit w = false -> onewireTemperatureF s' = onewireTemperatureF s) /\
    (forall key, key ∉ gauge_labels w (onewireDeviceList s) ->
       onewireTemperatureC s' !! key = onewireTemperatureC s !! key /\
       onewireTemperatureF s' !! key = onewireTemperatureF s !! key).
Proof.
  intros Hready.
  destruct (observe_devices_more (take k (onewireDeviceList s)) 0 s)
    as (s' & t & Hrun & Hl & Hlen & _ & Hoff & Hkeys & _).
  { unfold ready in Hready. rewrite length_take. lia. }
  exists s', t. split_and!; try done.
  - unfold partial_pass. eapply runs_eq.
    + eapply runs_bind; [by apply reslice_runs|].
      eapply runs_bind; [apply runs_gets|]. exact Hrun.
    + done.
    + done.
  - unfold ready in *. by rewrite Hlen, Hl.
  - intros key Hkey. apply Hkeys. intros Hin. apply Hkey.
    unfold gauge_labels in *. apply list_elem_of_fmap in Hin as (d & -> & Hd).
    apply list_elem_of_fmap. exists d. split; [done|].
    apply elem_of_take in Hd as (i & Hi & _). by eapply list_elem_of_lookup_2.
Qed.

(** [n] passes. *)
Lemma poll_passes_more (n : nat) : forall s : state F,
  ready s ->
  exists s' t,
    runs (poll_passes w n) s tt s' t /\
    onewireDeviceList s' = onewireDeviceList s /\
    ready s' /\
    (enableFahrenheit w = false -> onewireTemperatureF s' = onewireTemperatureF s) /\
    (forall key, key ∉ gauge_labels w (onewireDeviceList s) ->
       onewireTemperatureC s' !! key = onewireTemperatureC s !! key /\
       onewireTemperatureF s' !! key = onewireTemperatureF s !! key) /\
    ((1 <= n)%nat ->
     forall d, d ∈ onewireDeviceList s ->
       is_Some (onewireTemperatureC s' !! (d, hostname w))) /\
    ((1 <= n)%nat -> NoDup (onewireDeviceList s) ->
     forall i d, onewireDeviceList s !! i = Some d ->
       exists v,
         sensors s' !! i
         = Some {| SensorID := d; SensorType := "temperature"; SensorValue := v |} /\
         onewireTemperatureC s' !! (d, hostname w) = Some v /\
         (enableFahrenheit w = true ->
          onewireTemperatureF s' !! (d, hostname w) = Some (fahrenheit v))) /\
    nreads s' = (nreads s + attempts t)%nat /\
    (n * length (onewireDeviceList s) <= attempts t)%nat /\
    (attempts t <= 5 * (n * length (onewireDeviceList s)))%nat /\
    (60 * n <= slept t)%nat /\
    (slept t <= attempts t + 60 * n)%nat.
Proof.
  induction n as [|n IH]; intros s Hready.
  - exists s, []. split_and!; try done; try (simpl; lia); try (intros; lia).
  - destruct (IH s Hready)
      as (sn & tn & Hn & Hln & Hreadyn & Hoffn & Hkeysn & _ & _ & Hnn & Ha1 & Ha2 & Hs1 & Hs2).
    destruct (poll_pass_more sn Hreadyn)
      as (s' & t & Hpass & Hl & Hready' & Hoff & Hkeys & Hset & Hnodup & Hn' & Hb1 & Hb2 &
          Hc1 & Hc2).
    rewrite Hln in *.
    exists s', (tn ++ t). rewrite attempts_app, slept_app.
    split_and!.
    + cbn [poll_passes]. eapply runs_bind; [exact Hn|exact Hpass].
    + done.
    + done.
    + intros Hf. by rewrite Hoff, Hoffn.
    + intros key Hkey. destruct (Hkeys key Hkey) as [-> ->]. by apply Hkeysn.
    + intros _. exact Hset.
    + intros _. exact Hnodup.
    + lia.
    + lia.
    + lia.
    + lia.
    + lia.
Qed.

Lemma attempts_found (l : list string) : attempts (map (found (F:=F)) l) = 0%nat.
Proof. by induction l. Qed.

Lemma slept_found (l : list string) : slept (map (found (F:=F)) l) = 0%nat.
Proof. by induction l. Qed.

(** With an unreadable directory the program is over before its loop. *)
Lemma program_exits (err : error) (n k : nat) :
  dir_entries w = Err err ->
  observeOnewireTemperature w n initial
  = (Exit 1, initial, [ReadDir onewireDevicePath;
                       Logf FatalLevel "Can't read device directory %v" [LError err]]) /\
  observe_until w n k initial
  = (Exit 1, initial, [ReadDir onewireDevicePath;
                       Logf FatalLevel "Can't read device directory %v" [LError err]]).
Proof.
  intros Hdir.
  pose proof (createOnewireDeviceList_exits w err initial Hdir) as Hc.
  assert (Hs : startup w initial
               = (Exit 1, initial,
                  [ReadDir onewireDevicePath;
                   Logf FatalLevel "Can't read device directory %v" [LError err]])).
  { unfold startup, mbind, M_bind, bind. by rewrite Hc. }
  assert (Ho : observeOnewireTemperature w n initial
               = (Exit 1, initial,
                  [ReadDir onewireDevicePath;
                   Logf FatalLevel "Can't read device directory %v" [LError err]])).
  { unfold observeOnewireTemperature, mbind, M_bind, bind. by rewrite Hs. }
  split; [done|].
  unfold observe_until, mbind, M_bind, bind. by rewrite Ho.
Qed.

(** The program after [n] passes and [k] more devices, from the start. *)
Lemma program_more (names : list string) (n k : nat) :
  dir_entries w = Ok names ->
  exists sn tn sk tk,
    runs (observeOnewireTemperature w n) initial tt sn tn /\
    runs (observe_until w n k) initial tt sk tk /\
    onewireDeviceList sn = List.filter keep names /\
    (enableFahrenheit w = false ->
     onewireTemperatureF sn = ∅ /\ onewireTemperatureF sk = ∅) /\
    (forall key, key ∉ gauge_labels w (List.filter keep names) ->
       onewireTemperatureC sn !! key = None /\ onewireTemperatureF sn !! key = None /\
       onewireTemperatureC sk !! key = None /\ onewireTemperatureF sk !! key = None) /\
    ((1 <= n)%nat ->
     forall d, d ∈ List.filter keep names ->
       is_Some (onewireTemperatureC sn !! (d, hostname w))) /\
    ((1 <= n)%nat -> NoDup (List.filter keep names) ->
     forall i d, List.filter keep names !! i = Some d ->
       exists v,
         sensors sn !! i
         = Some {| SensorID := d; SensorType := "temperature"; SensorValue := v |} /\
         onewireTemperatureC sn !! (d, hostname w) = Some v /\
         (enableFahrenheit w = true ->
          onewireTemperatureF sn !! (d, hostname w) = Some (fahrenheit v))) /\
    nreads sn = attempts tn /\
    (n * length (List.filter keep names) <= attempts tn)%nat /\
    (attempts tn <= 5 * (n * length (List.filter keep names)))%nat /\
    (60 * n <= slept tn)%nat /\
    (slept tn <= attempts tn + 60 * n)%nat.
Proof.
  intros Hdir.
  pose proof (startup_runs w names Hdir) as Hstart.
  destruct (discovered_initial names) as [Hready0 Hl0].
  destruct (poll_passes_more n _ Hready0)
    as (sn & tn & Hn & Hln & Hreadyn & Hoffn & Hkeysn & Hsetn & Hnodupn & Hnn & Ha1 & Ha2 &
        Hs1 & Hs2).
  rewrite Hl0 in *.
  destruct (partial_pass_more sn k Hreadyn) as (sk & tk & Hk & Hlk & _ & Hoffk & Hkeysk).
  rewrite Hln in *.
  eexists sn, _, sk, _. split_and!.
  - unfold observeOnewireTemperature. eapply runs_bind; [exact Hstart|exact Hn].
  - unfold observe_until, observeOnewireTemperature.
    eapply runs_bind; [|exact Hk]. eapply runs_bind; [exact Hstart|exact Hn].
  - done.
  - intros Hf. rewrite Hoffk, Hoffn by done. done.
  - intros key Hkey. destruct (Hkeysk key Hkey) as [-> ->].
    destruct (Hkeysn key Hkey) as [-> ->]. done.
  - done.
  - done.
  - change (ReadDir onewireDevicePath :: map found (List.filter keep names))
      with ([ReadDir onewireDevicePath] ++ map (found (F:=F)) (List.filter keep names)).
    rewrite !attempts_app, attempts_found. simpl in *. lia.
  - change (ReadDir onewireDevicePath :: map found (List.filter keep names))
      with ([ReadDir onewireDevicePath] ++ map (found (F:=F)) (List.filter keep names)).
    rewrite !attempts_app, attempts_found. simpl. lia.
  - change (ReadDir onewireDevicePath :: map found (List.filter keep names))
      with ([ReadDir onewireDevicePath] ++ map (found (F:=F)) (List.filter keep names)).
    rewrite !attempts_app, attempts_found. simpl. lia.
  - change (ReadDir onewireDevicePath :: map found (List.filter keep names))
      with ([ReadDir onewireDevicePath] ++ map (found (F:=F)) (List.filter keep names)).
    rewrite !slept_app, slept_found. change (slept [ReadDir onewireDevicePath]) with 0%nat. lia.
  - change (ReadDir onewireDevicePath :: map found (List.filter keep names))
      with ([ReadDir onewireDevicePath] ++ map (found (F:=F)) (List.filter keep names)).
    rewrite !slept_app, !attempts_app, slept_found, attempts_found.
    change (slept [ReadDir onewireDevicePath]) with 0%nat. simpl. lia.
Qed.

End MoreProgram.

(** ** Further properties *)

(** X1: The read of one device always returns: it ends the process in no case.
    It makes between one and five [ReadFile] calls, counted in [nreads],
    and changes neither the slots, nor the device list, nor a gauge; with
    an error it returns the value 0. *)
Theorem read_returns_and_changes_no_variable {F} `{Float64 F} (w : World) (s : state F)
    (deviceID : string) :
  let run := readOnewireDevicePayload w deviceID s in
  exists value err,
    outcome_of run = Return (value, err) /\
    (is_Some err -> value = f_0) /\
    sensors (state_of run) = sensors s /\
    onewireDeviceList (state_of run) = onewireDeviceList s /\
    onewireTemperatureC (state_of run) = onewireTemperatureC s /\
    onewireTemperatureF (state_of run) = onewireTemperatureF s /\
    nreads (state_of run) = (nreads s + attempts (events_of run))%nat /\
    (1 <= attempts (events_of run) <= 5)%nat /\
    ReadDir_calls (events_of run) = 0%nat.
Proof.
  cbv zeta. unfold readOnewireDevicePayload.
  destruct (read_loop_returns w deviceID 5 s) as (v & e & t & Hr & _ & Hv & Hrd).
  destruct (read_loop_counts w deviceID 5 s) as (Hn & Hle & Hge & _).
  apply runs_outcome in Hr as (Ho & Hs & Ht).
  exists v, e. rewrite Ho. split_and!; [done|done|by rewrite Hs..|done|lia|lia|by rewrite Ht].
Qed.

(** X2: One iteration of the device loop touches the slot of its index and the
    gauges of its device and nothing else: the other slots, the gauges of
    the other devices and the device list are as before, and with
    export.fahrenheit off the Fahrenheit gauges are not touched at all. *)
Theorem observe_device_touches_one_device {F} `{Float64 F} (w : World) (s : state F)
    (index : nat) (deviceID : string) :
  (index < length (sensors s))%nat ->
  let run := observe_device w index deviceID s in
  outcome_of run = Return tt /\
  onewireDeviceList (state_of run) = onewireDeviceList s /\
  length (sensors (state_of run)) = length (sensors s) /\
  (forall j, j <> index -> sensors (state_of run) !! j = sensors s !! j) /\
  (forall key, key <> (deviceID, hostname w) ->
     onewireTemperatureC (state_of run) !! key = onewireTemperatureC s !! key /\
     onewireTemperatureF (state_of run) !! key = onewireTemperatureF s !! key) /\
  (enableFahrenheit w = false ->
   onewireTemperatureF (state_of run) = onewireTemperatureF s).
Proof.
  intros Hindex run.
  destruct (observe_device_counts w index deviceID s Hindex) as (v & r & t & Hrun & _).
  apply runs_outcome in Hrun as (Ho & Hs & _). subst run. rewrite Ho, Hs.
  destruct (published_frame w index deviceID v (with_nreads r s))
    as (Hl & _ & Hlen & Hslots & Hkeys & Hoff).
  done.
Qed.

Lemma observe_device_touches_one_device_witness :
  let before := state_of (observeOnewireTemperature (F:=Q) unreadable_in_second_pass 1 initial) in
  let after := state_of (observe_device unreadable_in_second_pass 0 "28-000001" before) in
  sensors after !! 1%nat = sensors before !! 1%nat /\
  onewireTemperatureC after !! ("28-000002", "pi")
  = onewireTemperatureC before !! ("28-000002", "pi").
Proof.
  cbv zeta.
  destruct (observe_device_touches_one_device (F:=Q) unreadable_in_second_pass
              (state_of (observeOnewireTemperature (F:=Q) unreadable_in_second_pass 1 initial))
              0 "28-000001")
    as (_ & _ & _ & Hslots & Hkeys & _).
  - vm_compute. lia.
  - split.
    + apply Hslots. lia.
    + apply Hkeys. discriminate.
Defined.

(** X3: When the device directory cannot be read the program ends at once,
    whatever number of passes is asked for: exit status 1 after the one
    [ReadDir] and the fatal log entry, no file read, no pause, and no
    variable changed (no device listed, no slot made, no gauge set). *)
Theorem unreadable_directory_ends_the_program {F} `{Float64 F} (w : World) (err : error)
    (n k : nat) :
  dir_entries w = Err err ->
  observeOnewireTemperature w n initial
  = (Exit 1, initial, [ReadDir onewireDevicePath;
                       Logf FatalLevel "Can't read device directory %v" [LError err]]) /\
  observe_until w n k initial
  = (Exit 1, initial, [ReadDir onewireDevicePath;
                       Logf FatalLevel "Can't read device directory %v" [LError err]]).
Proof. apply program_exits. Qed.

Lemma unreadable_directory_ends_the_program_witness :
  let w := {| dir_entries := Err (PathError "open" "/sys/bus/w1/devices/");
              file_contents := fun _ _ => Ok (w1_slave "21500");
              hostname := "pi"; enableFahrenheit := true |} in
  outcome_of (observeOnewireTemperature (F:=float) w 3 initial) = Exit 1 /\
  attempts (events_of (observeOnewireTemperature (F:=float) w 3 initial)) = 0%nat.
Proof.
  cbv zeta.
  destruct (unreadable_directory_ends_the_program (F:=float)
              {| dir_entries := Err (PathError "open" "/sys/bus/w1/devices/");
                 file_contents := fun _ _ => Ok (w1_slave "21500");
                 hostname := "pi"; enableFahrenheit := true |}
              (PathError "open" "/sys/bus/w1/devices/") 3 0 eq_refl) as [-> _].
  split; reflexivity.
Defined.

(** X4: The polling never panics: in every world whose directory can be read
    the run reaches every point of every pass (the index of the slot
    written is within the slice, and the bound of the re-slicing within
    its capacity); otherwise it has exited with status 1. *)
Theorem polling_never_panics {F} `{Float64 F} (w : World) (n k : nat) :
  outcome_of (observe_until w n k initial)
  = match dir_entries w with
    | Ok _ => Return tt
    | Err _ => Exit 1
    end.
Proof.
  destruct (dir_entries w) as [names|err] eqn:Hdir.
  - destruct (program_more w names n k Hdir) as (sn & tn & sk & tk & _ & Hk & _).
    apply runs_outcome in Hk as (-> & _). done.
  - destruct (program_exits w err n k Hdir) as [_ ->]. done.
Qed.

(** X5: A directory without a sensor (empty, or holding the bus master only):
    every pass reads no file and only sleeps its 60 seconds; no gauge is
    ever set and the slice stays empty. *)
Theorem no_device_passes_only_sleep {F} `{Float64 F} (w : World) (names : list string)
    (n : nat) :
  dir_entries w = Ok names ->
  List.filter keep names = [] ->
  let run := observeOnewireTemperature w n initial in
  outcome_of run = Return tt /\
  events_of run = ReadDir onewireDevicePath :: replicate n (Sleep 60) /\
  sensors (state_of run) = [] /\
  onewireTemperatureC (state_of run) = ∅ /\
  onewireTemperatureF (state_of run) = ∅.
Proof.
  intros Hdir Hnone run.
  pose proof (startup_runs w names Hdir) as Hstart. rewrite Hnone in Hstart.
  assert (Hd : discovered names initial = initial (F:=F)).
  { unfold discovered. by rewrite Hnone. }
  rewrite Hd in Hstart.
  assert (Hpasses : runs (poll_passes w n) initial tt initial (replicate n (Sleep 60))).
  { induction n as [|n IH]; [apply runs_ret|].
    cbn [poll_passes]. eapply runs_eq.
    - eapply runs_bind; [exact IH|].
      unfold poll_pass. eapply runs_bind; [by apply reslice_runs|].
      eapply runs_bind; [apply runs_gets|].
      eapply runs_bind; [apply runs_ret|]. apply runs_emit.
    - done.
    - simpl. clear. induction n as [|n IH]; [done|]. simpl. by rewrite IH. }
  assert (Hrun : runs (observeOnewireTemperature w n) initial tt initial
                   ([ReadDir onewireDevicePath] ++ replicate n (Sleep 60))).
  { unfold observeOnewireTemperature. eapply runs_bind; [exact Hstart|exact Hpasses]. }
  apply runs_outcome in Hrun as (Ho & Hs & Ht). subst run. by rewrite Ho, Hs, Ht.
Qed.

Lemma no_device_passes_only_sleep_witness :
  let w := {| dir_entries := Ok ["w1_bus_master1"];
              file_contents := fun _ _ => Ok (w1_slave "21500");
              hostname := "pi"; enableFahrenheit := true |} in
  events_of (observeOnewireTemperature (F:=float) w 2 initial)
  = [ReadDir "/sys/bus/w1/devices/"; Sleep 60; Sleep 60].
Proof.
  cbv zeta.
  destruct (no_device_passes_only_sleep (F:=float)
              {| dir_entries := Ok ["w1_bus_master1"];
                 file_contents := fun _ _ => Ok (w1_slave "21500");
                 hostname := "pi"; enableFahrenheit := true |}
              ["w1_bus_master1"] 2 eq_refl eq_refl) as (_ & -> & _).
  reflexivity.
Defined.

(** X6: After every complete pass the two endpoints agree: when the entries of
    the directory have distinct names, the Celsius gauge of each device
    holds the value of the device's slot in the slice served as JSON, and
    with export.fahrenheit on its Fahrenheit gauge holds the conversion of
    that value. *)
Theorem gauges_agree_with_snapshot_after_a_pass {F} `{Float64 F} (w : World)
    (names : list string) (n : nat) :
  dir_entries w = Ok names ->
  NoDup names ->
  (1 <= n)%nat ->
  let s := state_of (observeOnewireTemperature w n initial) in
  forall i deviceID,
    onewireDeviceList s !! i = Some deviceID ->
    exists value,
      jsonPathHandler s !! i
      = Some {| SensorID := deviceID; SensorType := "temperature"; SensorValue := value |} /\
      onewireTemperatureC s !! (deviceID, hostname w) = Some value /\
      (enableFahrenheit w = true ->
       onewireTemperatureF s !! (deviceID, hostname w) = Some (fahrenheit value)).
Proof.
  intros Hdir Hnodup Hn s i deviceID Hi.
  destruct (program_more w names n 0 Hdir)
    as (sn & tn & sk & tk & Hrun & _ & Hl & _ & _ & _ & Hagree & _).
  apply runs_outcome in Hrun as (_ & Hs & _). subst s. rewrite Hs in *.
  rewrite Hl in Hi. apply (Hagree Hn); [|done].
  apply NoDup_ListNoDup, List.NoDup_filter. by apply NoDup_ListNoDup.
Qed.

Lemma gauges_agree_with_snapshot_after_a_pass_witness :
  let s := state_of (observeOnewireTemperature (F:=Q) unreadable_in_second_pass 2 initial) in
  exists value,
    jsonPathHandler s !! 1%nat
    = Some {| SensorID := "28-000002"; SensorType := "temperature"; SensorValue := value |} /\
    onewireTemperatureC s !! ("28-000002", "pi") = Some value /\
    onewireTemperatureF s !! ("28-000002", "pi") = Some (fahrenheit value).
Proof.
  cbv zeta.
  destruct (gauges_agree_with_snapshot_after_a_pass (F:=Q) unreadable_in_second_pass
              ["28-000001"; "28-000002"; "w1_bus_master1"] 2 eq_refl) with (i := 1%nat)
              (deviceID := "28-000002") as (value & Hslot & HC & HF).
  - apply (bool_decide_unpack _). vm_compute. exact I.
  - lia.
  - vm_compute. reflexivity.
  - exists value. split_and!; [done|done|by apply HF].
Defined.

(** X7: With export.fahrenheit off the Fahrenheit gauge vector (which [init]
    then leaves nil) is never written: at every point of the polling it has
    no entry. *)
Theorem fahrenheit_gauges_unused_when_disabled {F} `{Float64 F} (w : World) (n k : nat) :
  enableFahrenheit w = false ->
  onewireTemperatureF (state_of (observe_until w n k initial)) = ∅.
Proof.
  intros Hoff. destruct (dir_entries w) as [names|err] eqn:Hdir.
  - destruct (program_more w names n k Hdir) as (sn & tn & sk & tk & _ & Hk & _ & Hf & _).
    apply runs_outcome in Hk as (_ & -> & _). by apply Hf.
  - destruct (program_exits w err n k Hdir) as [_ ->]. done.
Qed.

Lemma fahrenheit_gauges_unused_when_disabled_witness :
  onewireTemperatureF (state_of (observe_until (F:=Q) two_passes 1 1 initial)) = ∅.
Proof.
  apply (fahrenheit_gauges_unused_when_disabled (F:=Q) two_passes 1 1 eq_refl).
Defined.

(** X8: Gauges exist for the discovered devices only: at every point of the
    polling a label with a value is the label of a device of the list (so
    an entry whose name contains "w1_bus_master1" never has one), and once
    a pass is complete every device of the list has a Celsius value. *)
Theorem gauges_are_those_of_the_devices {F} `{Float64 F} (w : World) (names : list string)
    (n k : nat) :
  dir_entries w = Ok names ->
  let s := state_of (observe_until w n k initial) in
  (forall key,
     is_Some (onewireTemperatureC s !! key) \/ is_Some (onewireTemperatureF s !! key) ->
     exists deviceID,
       key = (deviceID, hostname w) /\ deviceID ∈ names /\
       Contains deviceID "w1_bus_master1" = false) /\
  ((1 <= n)%nat ->
   forall deviceID,
     deviceID ∈ names -> Contains deviceID "w1_bus_master1" = false ->
     is_Some (onewireTemperatureC (state_of (observeOnewireTemperature w n initial))
                !! (deviceID, hostname w))).
Proof.
  intros Hdir s.
  destruct (program_more w names n k Hdir)
    as (sn & tn & sk & tk & Hn & Hk & _ & _ & Hkeys & Hset & _).
  apply runs_outcome in Hk as (_ & Hsk & _). apply runs_outcome in Hn as (_ & Hsn & _).
  subst s. rewrite Hsk, Hsn.
  assert (Hkeep : forall d, d ∈ List.filter keep names <->
                            d ∈ names /\ Contains d "w1_bus_master1" = false).
  { intros d. rewrite !list_elem_of_In, List.filter_In. unfold keep.
    by rewrite negb_true_iff. }
  split.
  - intros key Hsome.
    destruct (decide (key ∈ gauge_labels w (List.filter keep names))) as [Hin|Hnin].
    + unfold gauge_labels in Hin. apply list_elem_of_fmap in Hin as (d & -> & Hd).
      exists d. by apply Hkeep in Hd as [??].
    + destruct (Hkeys key Hnin) as (_ & _ & HC & HF). rewrite HC, HF in Hsome.
      destruct Hsome as [[? ?]|[? ?]]; done.
  - intros Hn1 d Hd Hc. apply (Hset Hn1). by apply Hkeep.
Qed.

Lemma gauges_are_those_of_the_devices_witness :
  onewireTemperatureC (state_of (observe_until (F:=Q) two_passes 1 1 initial))
    !! ("w1_bus_master1", "pi") = None.
Proof.
  destruct (gauges_are_those_of_the_devices (F:=Q) two_passes
              ["28-000001"; "28-000002"; "w1_bus_master1"] 1 1 eq_refl) as [Hkeys _].
  destruct (onewireTemperatureC _ !! _) as [v|] eqn:Hv; [|done].
  destruct (Hkeys ("w1_bus_master1", "pi")) as (d & [= <-] & _ & Hc).
  - left. by rewrite Hv.
  - vm_compute in Hc. discriminate Hc.
Defined.

(** X9: What [n] passes cost: each pass reads every device's file at least
    once and at most five times, and sleeps its 60 seconds plus at most one
    second per read; [nreads] counts the reads. *)
Theorem reads_and_sleep_of_passes {F} `{Float64 F} (w : World) (names : list string)
    (n : nat) :
  dir_entries w = Ok names ->
  let devices := length (List.filter keep names) in
  let run := observeOnewireTemperature w n initial in
  (n * devices <= attempts (events_of run) <= 5 * (n * devices))%nat /\
  (60 * n <= slept (events_of run) <= 60 * n + attempts (events_of run))%nat /\
  nreads (state_of run) = attempts (events_of run).
Proof.
  intros Hdir devices run.
  destruct (program_more w names n 0 Hdir)
    as (sn & tn & sk & tk & Hn & _ & _ & _ & _ & _ & _ & Hr & Ha1 & Ha2 & Hs1 & Hs2).
  apply runs_outcome in Hn as (_ & Hs & Ht). subst run devices. rewrite Hs, Ht.
  split_and!; [done|done|done|lia|done].
Qed.

Lemma reads_and_sleep_of_passes_witness :
  let run := observeOnewireTemperature (F:=Q) two_passes 2 initial in
  (4 <= attempts (events_of run) <= 20)%nat /\
  (120 <= slept (events_of run) <= 120 + attempts (events_of run))%nat.
Proof.
  cbv zeta.
  destruct (reads_and_sleep_of_passes (F:=Q) two_passes
              ["28-000001"; "28-000002"; "w1_bus_master1"] 2 eq_refl) as (Ha & Hs & _).
  split; [exact Ha|exact Hs].
Defined.

(** ** Further facts about rounding *)




(** ** Further facts about the pattern *)

Lemma no_marker_no_match (s : string) :
  Contains s "YES" = false \/ Contains s "t=" = false ->
  FindStringSubmatch re s = None.
Proof.
  intros Hnone. destruct (FindStringSubmatch re s) as [m|] eqn:Hm; [exfalso|done].
  rewrite FindStringSubmatch_re in Hm.
  apply match_here_has_field in Hm as (a & b & cap & c & -> & _).
  destruct Hnone as [Hno|Hno].
  - assert (Hyes : Contains (a +:+ "YES" +:+ b +:+ "t=" +:+ cap +:+ c) "YES" = true).
    { apply Contains_spec. by exists a, (b +:+ "t=" +:+ cap +:+ c). }
    congruence.
  - assert (Ht : Contains (a +:+ "YES" +:+ b +:+ "t=" +:+ cap +:+ c) "t=" = true).
    { apply Contains_spec. exists (a +:+ "YES" +:+ b), (cap +:+ c).
      by rewrite !app_assoc_s. }
    congruence.
Qed.

(** X11: A sensor whose file, at each of the five attempts, lacks the marker
    YES (a failed CRC reads NO) or lacks a field [t=], gives no reading:
    after five reads and five pauses of one second the read returns the
    value 0 with the error "Failed to read device". *)
Theorem payload_without_marker_is_refused {F} `{Float64 F} (w : World) (s : state F)
    (deviceID : string) :
  (forall i, (1 <= i <= 5)%nat -> exists buffer,
     file_contents w (nreads s + i - 1) (devicePayloadFile_of deviceID) = Ok buffer /\
     (Contains buffer "YES" = false \/ Contains buffer "t=" = false)) ->
  let run := readOnewireDevicePayload w deviceID s in
  outcome_of run = Return (f_0, Some (errorString "Failed to read device")) /\
  attempts (events_of run) = 5%nat /\
  sleeps (events_of run) = [1; 1; 1; 1; 1]%nat.
Proof.
  intros Hbad run.
  assert (Hr : runs (read_loop w deviceID (devicePayloadFile_of deviceID) (5 + 0)) s
            (f_0, Some (errorString "Failed to read device"))
            (with_nreads (nreads s + 5) s)
            (retry_rounds w deviceID 5 ++ [])).
  { apply read_loop_retries.
    - intros i Hi. destruct (Hbad (S i)) as (buffer & Hread & Hno); [lia|].
      exists buffer. split.
      + rewrite <- Hread. f_equal. lia.
      + by apply no_marker_no_match.
    - apply read_loop_exhausted. }
  rewrite app_nil_r in Hr. change (5 + 0)%nat with 5%nat in Hr.
  apply runs_outcome in Hr as (Ho & _ & Ht). subst run.
  unfold readOnewireDevicePayload. rewrite Ho, Ht. done.
Qed.

Lemma payload_without_marker_is_refused_witness :
  let w := example_world (replicate 5 (Ok "6d 01 4b 46 7f ff 03 10 5e : crc=5e NO t=22812"))
             false in
  outcome_of (readOnewireDevicePayload (F:=float) w "28-000001" initial)
  = Return (0%float, Some (errorString "Failed to read device")).
Proof.
  cbv zeta.
  destruct (payload_without_marker_is_refused (F:=float)
              (example_world
                 (replicate 5 (Ok "6d 01 4b 46 7f ff 03 10 5e : crc=5e NO t=22812")) false)
              initial "28-000001") as (Ho & _).
  - intros i Hi. exists "6d 01 4b 46 7f ff 03 10 5e : crc=5e NO t=22812". split.
    + destruct i as [|[|[|[|[|[|i]]]]]]; try lia; reflexivity.
    + left. reflexivity.
  - exact Ho.
Defined.

(** ** Further facts about discovery and the slots *)

(** X12: Discovery appends: run from any state whose directory can be read, it
    adds the kept names after the devices already listed, logs one entry
    per name added, makes the slice anew with a zero value per device
    listed (whatever it held is gone), and touches no gauge. *)
Theorem discovery_appends_and_resets_the_slice {F} `{Float64 F} (w : World) (s : state F)
    (names : list string) :
  dir_entries w = Ok names ->
  let run := createOnewireDeviceList w s in
  let added := List.filter (fun name => negb (Contains name "w1_bus_master1")) names in
  outcome_of run = Return None /\
  onewireDeviceList (state_of run) = onewireDeviceList s ++ added /\
  sensors (state_of run)
  = replicate (length (onewireDeviceList s) + length added) zero_sensor /\
  onewireTemperatureC (state_of run) = onewireTemperatureC s /\
  onewireTemperatureF (state_of run) = onewireTemperatureF s /\
  events_of run
  = ReadDir onewireDevicePath
    :: map (fun name => Logf InfoLevel "Device found: %s" [LString name]) added.
Proof.
  intros Hdir run added.
  pose proof (createOnewireDeviceList_runs w names s Hdir) as Hc.
  apply runs_outcome in Hc as (Ho & Hs & Ht). subst run. rewrite Ho, Hs, Ht.
  unfold discovered. simpl. by rewrite length_app.
Qed.

Lemma discovery_appends_and_resets_the_slice_witness :
  let s := state_of (observeOnewireTemperature (F:=Q) two_passes 1 initial) in
  onewireDeviceList (state_of (createOnewireDeviceList two_passes s))
  = ["28-000001"; "28-000002"; "28-000001"; "28-000002"] /\
  sensors (state_of (createOnewireDeviceList two_passes s)) = replicate 4 zero_sensor.
Proof.
  cbv zeta.
  destruct (discovery_appends_and_resets_the_slice (F:=Q) two_passes
              (state_of (observeOnewireTemperature (F:=Q) two_passes 1 initial))
              ["28-000001"; "28-000002"; "w1_bus_master1"] eq_refl)
    as (_ & Hl & Hs & _).
  rewrite Hl, Hs. split; vm_compute; reflexivity.
Defined.

Section SlotOfAPass.
Context {F : Type} `{Float64 F}.
Variable w : World.

(** In a pass, the slot of a device receives the value returned by the
    read that is made when the devices before it have been processed. *)
Lemma pass_slot (s : state F) (i : nat) (d : string) :
  ready s -> onewireDeviceList s !! i = Some d ->
  exists sA tA v e r tr s' t',
    runs (partial_pass w i) s tt sA tA /\
    runs (readOnewireDevicePayload w d) sA (v, e) (with_nreads r sA) tr /\
    (is_Some e -> v = f_0) /\
    runs (poll_pass w) s tt s' t' /\
    sensors s' !! i
    = Some {| SensorID := d; SensorType := "temperature"; SensorValue := v |}.
Proof.
  intros Hready Hd. unfold ready in Hready.
  set (l := onewireDeviceList s) in *.
  assert (Hi : (i < length l)%nat) by (by eapply lookup_lt_Some).
  assert (Hli : length (take i l) = i) by (rewrite length_take; lia).
  destruct (observe_devices_runs w (take i l) 0 s)
    as (sA & tA & HA & HlA & HlenA & _ & _ & _); [simpl; lia|].
  destruct (observe_device_runs w i d sA) as (v & e & r & tr & t1 & Hread & Hone & Herr & _);
    [lia|].
  set (sB := published w i d v (with_nreads r sA)) in *.
  assert (HsB : sensors sB = <[i := {| SensorID := d; SensorType := "temperature";
                                       SensorValue := v |}]> (sensors sA)).
  { unfold sB. by rewrite published_sensors. }
  destruct (observe_devices_runs w (drop (S i) l) (S i) sB)
    as (sC & tC & HC & _ & _ & HframeC & _ & _).
  { rewrite HsB, length_insert, length_drop. lia. }
  assert (Hall : runs (observe_devices w l 0) s tt sC (tA ++ t1 ++ tC)).
  { rewrite <- (take_drop_middle l i d Hd) at 1.
    eapply observe_devices_app; [exact HA|].
    rewrite Nat.add_0_l, Hli. cbn [observe_devices].
    eapply runs_bind; [exact Hone|exact HC]. }
  exists sA, tA, v, e, r, tr, sC, ((tA ++ t1 ++ tC) ++ [Sleep 60]). split_and!.
  - unfold partial_pass. eapply runs_eq.
    + eapply runs_bind; [by apply reslice_runs|].
      eapply runs_bind; [apply runs_gets|]. exact HA.
    + done.
    + done.
  - exact Hread.
  - intros He. by destruct (Herr He).
  - unfold poll_pass. eapply runs_eq.
    + eapply runs_bind; [by apply reslice_runs|].
      eapply runs_bind; [apply runs_gets|].
      eapply runs_bind; [exact Hall|]. apply runs_emit.
    + done.
    + done.
  - rewrite HframeC by lia. rewrite HsB. apply list_lookup_insert_eq. lia.
Qed.

End SlotOfAPass.

(** X13: Each slot holds what its device's read returned in the latest pass:
    after pass [n+1] the slot of the device at position [i] carries the
    value that readOnewireDevicePayload returned when it was called with
    the first [i] devices of that pass processed (0 when that read
    failed), whatever happened to the other devices of the pass. *)
Theorem slot_holds_the_latest_read {F} `{Float64 F} (w : World) (names : list string)
    (n i : nat) (deviceID : string) :
  dir_entries w = Ok names ->
  List.filter (fun name => negb (Contains name "w1_bus_master1")) names !! i
  = Some deviceID ->
  exists value err,
    outcome_of (readOnewireDevicePayload w deviceID
                  (state_of (observe_until w n i initial)))
    = Return (value, err) /\
    (is_Some err -> value = f_0) /\
    jsonPathHandler (state_of (observeOnewireTemperature w (S n) initial)) !! i
    = Some {| SensorID := deviceID; SensorType := "temperature"; SensorValue := value |}.
Proof.
  intros Hdir Hi.
  pose proof (startup_runs w names Hdir) as Hstart.
  destruct (discovered_initial (F:=F) names) as [Hready0 Hl0].
  destruct (poll_passes_runs w n _ Hready0) as (sn & tn & Hn & Hln & Hreadyn & _ & _).
  rewrite Hl0 in Hln.
  destruct (pass_slot w sn i deviceID Hreadyn) as (sA & tA & v & e & r & tr & s' & t' &
    Hpart & Hread & Herr & Hpass & Hslot).
  { rewrite Hln. exact Hi. }
  assert (Hprog : runs (observeOnewireTemperature w n) initial tt sn
            ((ReadDir onewireDevicePath :: map found (List.filter keep names)) ++ tn)).
  { unfold observeOnewireTemperature. eapply runs_bind; [exact Hstart|exact Hn]. }
  assert (Huntil : runs (observe_until w n i) initial tt sA
            (((ReadDir onewireDevicePath :: map found (List.filter keep names)) ++ tn) ++ tA)).
  { unfold observe_until. eapply runs_bind; [exact Hprog|exact Hpart]. }
  assert (Hnext : runs (observeOnewireTemperature w (S n)) initial tt s'
            ((ReadDir onewireDevicePath :: map found (List.filter keep names)) ++ tn ++ t')).
  { unfold observeOnewireTemperature. eapply runs_bind; [exact Hstart|].
    cbn [poll_passes]. eapply runs_bind; [exact Hn|exact Hpass]. }
  apply runs_outcome in Huntil as (_ & -> & _).
  apply runs_outcome in Hnext as (_ & -> & _).
  apply runs_outcome in Hread as (Ho & _ & _).
  exists v, e. split_and!; [exact Ho|exact Herr|exact Hslot].
Qed.

Lemma slot_holds_the_latest_read_witness :
  exists value err,
    outcome_of (readOnewireDevicePayload (F:=Q) two_passes "28-000002"
                  (state_of (observe_until two_passes 1 1 initial)))
    = Return (value, err) /\
    (is_Some err -> value = f_0) /\
    jsonPathHandler (state_of (observeOnewireTemperature (F:=Q) two_passes 2 initial))
      !! 1%nat
    = Some {| SensorID := "28-000002"; SensorType := "temperature"; SensorValue := value |}.
Proof.
  apply (slot_holds_the_latest_read (F:=Q) two_passes
           ["28-000001"; "28-000002"; "w1_bus_master1"] 1 1 "28-000002" eq_refl).
  reflexivity.
Defined.
